(** * LAN_UMB: the Lufft UMB protocol driver (LAN_UMB.py)

    A shallow embedding of the frame codec, the CRC, the payload parsers,
    the status table and the query methods of class [LAN_UMB], followed by
    the properties proved about them. *)

From Stdlib Require Import ZArith List Lia Bool String.
From Stdlib Require Import Floats.SpecFloat.
Import ListNotations.
Open Scope Z_scope.

(* ================================================================== *)
(** * The Python values and built-ins the driver relies on *)
(* ================================================================== *)

Module Py.

(** A [bytes] object: a sequence of integers, each in [range(256)] when
    the object is well formed. *)
Definition bytes := list Z.

Definition is_byte (b : Z) : Prop := 0 <= b < 256.
Definition wf_bytes (bs : bytes) : Prop := Forall is_byte bs.

(** The values that flow through the driver. *)
#[warnings="-register-all"]
Inductive value :=
  | PyInt (z : Z)
  | PyBytes (b : bytes)
  | PyFloat (f : spec_float)
  | PyStr (s : string)
  | PyNone
  | PyList (l : list value).

(** The text of the seven [UMBError]s raised by [send_request], with the
    data spliced into the message. *)
Inductive rx_error :=
  | InvalidLength (length : Z)          (* "RX-Error! Length of Payload is not valid. ..." *)
  | ChecksumFailed (calculated received : bytes)
                                        (* "RX-Error! Checksum test failed. ..." *)
  | NoStartOfFrame                      (* "RX-Error! No Start-of-frame Character" *)
  | WrongVersion                        (* "RX-Error! Wrong Version Number" *)
  | MissingSTX                          (* "RX-Error! Missing STX field" *)
  | WrongCommand                        (* "RX-Error! Wrong Command Number" *)
  | WrongCommandVersion.                (* "RX-Error! Wrong Command Version Number" *)

Inductive exn :=
  | UMBError (e : rx_error)
  | OverflowError                       (* int.to_bytes out of range *)
  | StructError                         (* struct.error: buffer of the wrong size *)
  | TypeError.                          (* subscripting an int *)

Inductive result (A : Type) :=
  | Ok (a : A)
  | Raise (e : exn).
Arguments Ok {A} a.
Arguments Raise {A} e.

Definition bind {A B} (r : result A) (k : A -> result B) : result B :=
  match r with
  | Ok a => k a
  | Raise e => Raise e
  end.

Definition len {A} (l : list A) : Z := Z.of_nat (List.length l).

Fixpoint bytes_eqb (a b : bytes) : bool :=
  match a, b with
  | [], [] => true
  | x :: a', y :: b' => (x =? y) && bytes_eqb a' b'
  | _, _ => false
  end.

(** [b[start:stop]] with Python's clamping and negative indices. *)
Definition clamp (n i : Z) : Z :=
  if i <? 0 then Z.max (n + i) 0 else Z.min i n.

Definition slice (b : bytes) (start stop : option Z) : bytes :=
  let n := len b in
  let lo := match start with Some i => clamp n i | None => 0 end in
  let hi := match stop with Some j => clamp n j | None => n end in
  firstn (Z.to_nat (hi - lo)) (skipn (Z.to_nat lo) b).

(** [int.from_bytes(b, byteorder='little')]. *)
Fixpoint int_from_bytes (b : bytes) : Z :=
  match b with
  | [] => 0
  | x :: b' => x + 256 * int_from_bytes b'
  end.

(** [z.to_bytes(n, 'little')]: [OverflowError] outside [0 .. 256^n - 1]. *)
Fixpoint le_digits (n : nat) (z : Z) : bytes :=
  match n with
  | O => []
  | S n' => z mod 256 :: le_digits n' (z / 256)
  end.

Definition to_bytes (n : nat) (z : Z) : result bytes :=
  if (0 <=? z) && (z <? 256 ^ Z.of_nat n) then Ok (le_digits n z)
  else Raise OverflowError.

(** The eight [struct] formats used by [parse_data_request], all with the
    little-endian prefix ["<"]. *)
Inductive fmt := fmt_B | fmt_b | fmt_H | fmt_h | fmt_L | fmt_l | fmt_f | fmt_d.

Definition calcsize (f : fmt) : nat :=
  match f with
  | fmt_B | fmt_b => 1
  | fmt_H | fmt_h => 2
  | fmt_L | fmt_l | fmt_f => 4
  | fmt_d => 8
  end%nat.

(** Two's complement reading of an unsigned [bits]-bit number. *)
Definition as_signed (bits : Z) (u : Z) : Z :=
  if u <? 2 ^ (bits - 1) then u else u - 2 ^ bits.

(** An IEEE-754 binary interchange pattern with [mbits] fraction bits and
    [ebits] exponent bits. *)
Definition ieee_decode (mbits ebits : Z) (u : Z) : spec_float :=
  let m := u mod 2 ^ mbits in
  let e := (u / 2 ^ mbits) mod 2 ^ ebits in
  let s := Z.testbit u (mbits + ebits) in
  let bias := 2 ^ (ebits - 1) - 1 in
  if e =? 0 then
    match m with
    | Zpos p => S754_finite s p (1 - bias - mbits)
    | _ => S754_zero s
    end
  else if e =? 2 ^ ebits - 1 then
    (if m =? 0 then S754_infinity s else S754_nan)
  else
    match m + 2 ^ mbits with
    | Zpos p => S754_finite s p (e - bias - mbits)
    | _ => S754_nan
    end.

(** A Python [float] is a binary64; a binary32 read by ["<f"] is widened,
    which is exact. *)
Definition to_double (f : spec_float) : spec_float :=
  match f with
  | S754_finite s m e => binary_normalize 53 1024 (cond_Zopp s (Zpos m)) e s
  | _ => f
  end.

(** [struct.unpack(f, buf)[0]]. *)
Definition struct_unpack (f : fmt) (buf : bytes) : result value :=
  if Nat.eqb (List.length buf) (calcsize f) then
    let u := int_from_bytes buf in
    Ok match f with
       | fmt_B | fmt_H | fmt_L => PyInt u
       | fmt_b => PyInt (as_signed 8 u)
       | fmt_h => PyInt (as_signed 16 u)
       | fmt_l => PyInt (as_signed 32 u)
       | fmt_f => PyFloat (to_double (ieee_decode 23 8 u))
       | fmt_d => PyFloat (to_double (ieee_decode 52 11 u))
       end
  else Raise StructError.

(** [v != 0] for the values [send_request] hands back: an [int] is compared
    by value, a [bytes] object is never equal to an [int]. *)
Definition ne_zero (v : value) : bool :=
  match v with
  | PyInt z => negb (z =? 0)
  | PyFloat f => negb (SFeqb f (S754_zero false))
  | _ => true
  end.

(** Subscripting: only a [bytes] object can be sliced. *)
Definition as_bytes (v : value) : result bytes :=
  match v with
  | PyBytes b => Ok b
  | _ => Raise TypeError
  end.

End Py.
Import Py.

Notation "x <- c1 ;; c2" := (bind c1 (fun x => c2))
  (at level 61, c1 at next level, right associativity).

(* ================================================================== *)
(** * class LAN_UMB *)
(* ================================================================== *)

Module UMB.

(** ** The checksum *)

(** One turn of the [for i in range(8)] loop of [calc_next_crc_byte], on
    the two variables the loop updates. *)
Definition crc_bit_step (st : Z * Z) : Z * Z :=
  let '(crc_buff, nextbyte) := st in
  let x16 :=
    if negb (Z.lxor (Z.land crc_buff 0x0001) (Z.land nextbyte 0x01) =? 0)
    then 0x8408 else 0x0000 in
  let crc_buff := Z.shiftr crc_buff 1 in
  let crc_buff := Z.lxor crc_buff x16 in
  let nextbyte := Z.shiftr nextbyte 1 in
  (crc_buff, nextbyte).

Definition calc_next_crc_byte (crc_buff nextbyte : Z) : Z :=
  fst (Nat.iter 8 crc_bit_step (crc_buff, nextbyte)).

Definition calc_crc16 (data : bytes) : Z :=
  fold_left calc_next_crc_byte data 0xFFFF.

(** ** send_request *)

Definition SOH : bytes := [0x01].
Definition STX : bytes := [0x02].
Definition ETX : bytes := [0x03].
Definition EOT : bytes := [0x04].
Definition VERSION : bytes := [0x10].
Definition TO_CLASS : bytes := [0x70].
Definition FROM_CLASS : bytes := [0xF0].

(** The locals of [send_request] that outlive the assembly of the frame. *)
Record request := {
  tx_frame : bytes;
  COMMAND : bytes;
  COMMAND_VERSION : bytes
}.

(** Lines 111-134: the frame written to the socket. *)
Definition send_request_tx (receiver_id command command_version : Z)
    (payload : bytes) : result request :=
  TO <- to_bytes 1 receiver_id ;;
  FROM <- to_bytes 1 1 ;;
  let LEN := fold_left (fun LEN _ => LEN + 1) payload 2 in
  LEN <- to_bytes 1 LEN ;;
  COMMAND <- to_bytes 1 command ;;
  COMMAND_VERSION <- to_bytes 1 command_version ;;
  let tx_frame :=
    if len payload >? 0 then
      SOH ++ VERSION ++ TO ++ TO_CLASS ++ FROM ++ FROM_CLASS ++ LEN ++ STX
          ++ COMMAND ++ COMMAND_VERSION ++ payload ++ ETX
    else
      SOH ++ VERSION ++ TO ++ TO_CLASS ++ FROM ++ FROM_CLASS ++ LEN ++ STX
          ++ COMMAND ++ COMMAND_VERSION ++ ETX in
  crc <- to_bytes 2 (calc_crc16 tx_frame) ;;
  Ok {| tx_frame := tx_frame ++ crc ++ EOT;
        COMMAND := COMMAND;
        COMMAND_VERSION := COMMAND_VERSION |}.

(** Lines 146-186: what is made of the bytes [readFromLAN] returned. *)
Definition send_request_rx (rx_frame COMMAND COMMAND_VERSION : bytes)
    : result value :=
  if len rx_frame =? 0 then Ok (PyInt 0) else
  let length := int_from_bytes (slice rx_frame (Some 6) (Some 7)) in
  if negb (bytes_eqb (slice rx_frame (Some (8 + length)) (Some (9 + length))) ETX)
  then Raise (UMBError (InvalidLength length)) else
  let rx_frame :=
    if len rx_frame >? length + 12
    then slice rx_frame (Some (length + 12)) None
    else rx_frame in
  cs_calculated <- to_bytes 2 (calc_crc16 (slice rx_frame None (Some (-3)))) ;;
  let cs_received := slice rx_frame (Some (-3)) (Some (-1)) in
  if negb (bytes_eqb cs_calculated cs_received)
  then Raise (UMBError (ChecksumFailed cs_calculated cs_received)) else
  if negb (bytes_eqb (slice rx_frame (Some 0) (Some 1)) SOH)
  then Raise (UMBError NoStartOfFrame) else
  if negb (bytes_eqb (slice rx_frame (Some 1) (Some 2)) VERSION)
  then Raise (UMBError WrongVersion) else
  if negb (bytes_eqb (slice rx_frame (Some 7) (Some 8)) STX)
  then Raise (UMBError MissingSTX) else
  if negb (bytes_eqb (slice rx_frame (Some 8) (Some 9)) COMMAND)
  then Raise (UMBError WrongCommand) else
  if negb (bytes_eqb (slice rx_frame (Some 9) (Some 10)) COMMAND_VERSION)
  then Raise (UMBError WrongCommandVersion) else
  let payload := slice rx_frame (Some 10) (Some (8 + length)) in
  Ok (PyBytes payload).

(** [send_request], with the socket made explicit: the frame goes out
    through [self.s.send] and [reply] is what [self.readFromLAN()] then
    returns. *)
Definition send_request (reply : bytes)
    (receiver_id command command_version : Z) (payload : bytes)
    : result value :=
  rq <- send_request_tx receiver_id command command_version payload ;;
  send_request_rx reply (COMMAND rq) (COMMAND_VERSION rq).

(** ** Parsers of the reply payloads *)

(** cmd 0x23 and 0x2F *)
Definition parse_data_request (payload : bytes) : result value :=
  let type_of_value := int_from_bytes (slice payload (Some 3) (Some 4)) in
  let value := PyInt 0 in
  if type_of_value =? 16 then        (* UNSIGNED_CHAR *)
    struct_unpack fmt_B (slice payload (Some 4) (Some 5))
  else if type_of_value =? 17 then   (* SIGNED_CHAR *)
    struct_unpack fmt_b (slice payload (Some 4) (Some 5))
  else if type_of_value =? 18 then   (* UNSIGNED_SHORT *)
    struct_unpack fmt_H (slice payload (Some 4) (Some 6))
  else if type_of_value =? 19 then   (* SIGNED_SHORT *)
    struct_unpack fmt_h (slice payload (Some 4) (Some 6))
  else if type_of_value =? 20 then   (* UNSIGNED_LONG *)
    struct_unpack fmt_L (slice payload (Some 4) (Some 8))
  else if type_of_value =? 21 then   (* SIGNED_LONG *)
    struct_unpack fmt_l (slice payload (Some 4) (Some 8))
  else if type_of_value =? 22 then   (* FLOAT *)
    struct_unpack fmt_f (slice payload (Some 4) (Some 8))
  else if type_of_value =? 23 then   (* DOUBLE *)
    struct_unpack fmt_d (slice payload (Some 4) (Some 12))
  else Ok value.

(** cmd 0x2F: the body of [for i in range(0,n)], run [n] times on the
    loop variables [ptr] and [valist]. *)
Fixpoint multi_channel_loop (payload : bytes) (n : nat) (ptr : Z)
    (valist : list value) : result (list value) :=
  match n with
  | O => Ok valist
  | S n' =>
      let nsub := int_from_bytes (slice payload (Some ptr) (Some (ptr + 1))) in
      value <- parse_data_request
                 (slice payload (Some (ptr + 1)) (Some (ptr + nsub + 2))) ;;
      let valist := valist ++ [value] in
      let ptr := ptr + nsub + 1 in
      multi_channel_loop payload n' ptr valist
  end.

Definition parse_multi_channel_request (payload : bytes)
    : result (list value) :=
  let n := int_from_bytes (slice payload (Some 1) (Some 2)) in
  let ptr := 2 in
  let valist := [] in
  multi_channel_loop payload (Z.to_nat n) ptr valist.

(** cmd 0x26 *)
Definition parse_status_request (payload : bytes) : Z :=
  let status := int_from_bytes (slice payload (Some 1) (Some 2)) in
  status.

(** cmd 0x28 *)
Definition parse_readout_time_request (payload : bytes) : Z :=
  let ts := int_from_bytes (slice payload (Some 1) (Some 4)) in
  ts.

(** cmd 0x2D: prints the payload and returns 0. *)
Definition parse_device_info (payload : bytes) : Z := 0.

(** ** The status table *)

Open Scope string_scope.

(** The [if]/[elif] chain; a status that matches no branch falls off the
    end of the function, which returns [None]. *)
Definition checkStatus (status : Z) : value :=
  if Z.eqb status 0 then
    PyStr "Command successful; no error; all OK"
  else if Z.eqb status 16 then
    PyStr "Unknown command; not supported by this device"
  else if Z.eqb status 17 then
    PyStr "Status: ungÃ¼ltige Parameter"
  else if Z.eqb status 18 then
    PyStr "Invalid parameter"
  else if Z.eqb status 19 then
    PyStr "Invalid version of the command"
  else if Z.eqb status 20 then
    PyStr "Invalid password for command"
  else if Z.eqb status 32 then
    PyStr "Read error"
  else if Z.eqb status 33 then
    PyStr "Write error"
  else if Z.eqb status 34 then
    PyStr "Length too great; max. permissible length is designated in <maxlength>"
  else if Z.eqb status 35 then
    PyStr "Invalid address / storage location"
  else if Z.eqb status 36 then
    PyStr "Invalid channel"
  else if Z.eqb status 37 then
    PyStr "Command not possible in this mode"
  else if Z.eqb status 38 then
    PyStr "Unknown calibration command"
  else if Z.eqb status 39 then
    PyStr "Calibration error"
  else if Z.eqb status 40 then
    PyStr "Device not ready; e.g. initialisation / calibration running"
  else if Z.eqb status 41 then
    PyStr "Undervoltage"
  else if Z.eqb status 42 then
    PyStr "Hardware error"
  else if Z.eqb status 43 then
    PyStr "Measurement error"
  else if Z.eqb status 44 then
    PyStr "Error on device initialization"
  else if Z.eqb status 45 then
    PyStr "Error in operating system"
  else if Z.eqb status 48 then
    PyStr "Configuration error, default configuration was loaded"
  else if Z.eqb status 49 then
    PyStr "Calibration error / the calibration is invalid, measurement not possible"
  else if Z.eqb status 50 then
    PyStr "CRC error on loading configuration; default configuration was loaded"
  else if Z.eqb status 51 then
    PyStr "CRC error on loading calibration; measurement not possible"
  else if Z.eqb status 52 then
    PyStr "Calibration step 1"
  else if Z.eqb status 53 then
    PyStr "Calibrations OK"
  else if Z.eqb status 54 then
    PyStr "Channel deactivated"
  else PyNone.

(** The codes of the chain and their texts, as a table. *)
Definition status_table : list (Z * string) :=
  [ (0, "Command successful; no error; all OK");
    (16, "Unknown command; not supported by this device");
    (17, "Status: ungÃ¼ltige Parameter");
    (18, "Invalid parameter");
    (19, "Invalid version of the command");
    (20, "Invalid password for command");
    (32, "Read error");
    (33, "Write error");
    (34, "Length too great; max. permissible length is designated in <maxlength>");
    (35, "Invalid address / storage location");
    (36, "Invalid channel");
    (37, "Command not possible in this mode");
    (38, "Unknown calibration command");
    (39, "Calibration error");
    (40, "Device not ready; e.g. initialisation / calibration running");
    (41, "Undervoltage");
    (42, "Hardware error");
    (43, "Measurement error");
    (44, "Error on device initialization");
    (45, "Error in operating system");
    (48, "Configuration error, default configuration was loaded");
    (49, "Calibration error / the calibration is invalid, measurement not possible");
    (50, "CRC error on loading configuration; default configuration was loaded");
    (51, "CRC error on loading calibration; measurement not possible");
    (52, "Calibration step 1");
    (53, "Calibrations OK");
    (54, "Channel deactivated") ].

Close Scope string_scope.

(** ** The queries *)

Definition onlineDataQuery (reply : bytes) (channel receiver_id : Z)
    : result value :=
  let value := PyInt 0 in
  chan <- to_bytes 2 channel ;;
  payload <- send_request reply receiver_id 0x23 0x10 chan ;;
  if ne_zero payload then
    payload <- as_bytes payload ;;
    parse_data_request payload
  else Ok value.

(** [for channel in chlist: chbyteseq = chbyteseq + int(channel).to_bytes(2,'little')] *)
Fixpoint channel_bytes (chlist : list Z) (chbyteseq : bytes) : result bytes :=
  match chlist with
  | [] => Ok chbyteseq
  | channel :: rest =>
      c <- to_bytes 2 channel ;;
      channel_bytes rest (chbyteseq ++ c)
  end.

Definition onlineMultiChannelQuery (reply : bytes) (chlist : list Z)
    (receiver_id : Z) : result value :=
  chbyteseq <- to_bytes 1 (len chlist) ;;
  chbyteseq <- channel_bytes chlist chbyteseq ;;
  let valist := PyList [] in
  payload <- send_request reply receiver_id 0x2F 0x10 chbyteseq ;;
  if ne_zero payload then
    payload <- as_bytes payload ;;
    valist <- parse_multi_channel_request payload ;;
    Ok (PyList valist)
  else Ok valist.

Definition statusQuery (reply : bytes) (receiver_id : Z) : result value :=
  let status := PyInt (-1) in
  payload <- send_request reply receiver_id 0x26 0x10 [] ;;
  if ne_zero payload then
    payload <- as_bytes payload ;;
    Ok (PyInt (parse_status_request payload))
  else Ok status.

Definition readoutTimeQuery (reply : bytes) (receiver_id : Z) : result value :=
  let ts := PyInt 0 in
  payload <- send_request reply receiver_id 0x28 0x10 [] ;;
  if ne_zero payload then
    payload <- as_bytes payload ;;
    Ok (PyInt (parse_readout_time_request payload))
  else Ok ts.

Definition deviceInfoQuery (reply : bytes) (receiver_id : Z) : result value :=
  let info := PyBytes [] in
  payload <- send_request reply receiver_id 0x2D 0x10 [0x15] ;;
  if ne_zero payload then
    payload <- as_bytes payload ;;
    Ok (PyInt (parse_device_info payload))
  else Ok info.

End UMB.
Import UMB.

(* ================================================================== *)
(** * The vocabulary of the specification *)
(* ================================================================== *)

Module Spec.

(** The checksum as the specification words it: the running value starts
    at 0xFFFF; per byte, eight bit steps; step [k] shifts the running value
    right and XORs in 0x8408 exactly when the low bit of the running value
    and bit [k] of the byte differ. *)
Definition bit_step (running : Z) (bit : bool) : Z :=
  Z.lxor (Z.shiftr running 1)
         (if xorb (Z.testbit running 0) bit then 0x8408 else 0).

Definition byte_bits (byte : Z) : list bool :=
  map (fun k => Z.testbit byte (Z.of_nat k)) (seq 0 8).

Definition checksum_byte (running byte : Z) : Z :=
  fold_left bit_step (byte_bits byte) running.

Definition checksum (data : bytes) : Z :=
  fold_left checksum_byte data 0xFFFF.

(** A 16-bit running value. *)
Definition is_u16 (c : Z) : Prop := 0 <= c < 65536.

(** The length byte of a received buffer, as [send_request] reads it. *)
Definition declared_length (frame : bytes) : Z :=
  int_from_bytes (slice frame (Some 6) (Some 7)).

(** A valid response frame for [command]/[version] carrying [payload]:
    the decode step accepts it, and it is one frame and no more. *)
Definition valid_frame (command version frame payload : bytes) : Prop :=
  send_request_rx frame command version = Ok (PyBytes payload)
  /\ len frame = declared_length frame + 12.

(** Flipping bit [k] of the byte at index [i]. *)
Definition flip_bit (i : nat) (k : Z) (frame : bytes) : bytes :=
  match skipn i frame with
  | b :: rest => firstn i frame ++ Z.lxor b (Z.shiftl 1 k) :: rest
  | [] => frame
  end.

(** The type tags of a tagged scalar: byte width and reading of the
    little-endian bytes. *)
Definition le_unsigned (raw : bytes) : Z :=
  fold_right (fun b acc => b + 256 * acc) 0 raw.

Definition le_signed (raw : bytes) : Z :=
  let bits := 8 * len raw in
  (le_unsigned raw + 2 ^ (bits - 1)) mod 2 ^ bits - 2 ^ (bits - 1).

Definition tag_width (tag : Z) : option Z :=
  match tag with
  | 16 | 17 => Some 1
  | 18 | 19 => Some 2
  | 20 | 21 | 22 => Some 4
  | 23 => Some 8
  | _ => None
  end.

Definition tag_value (tag : Z) (raw : bytes) : value :=
  match tag with
  | 16 | 18 | 20 => PyInt (le_unsigned raw)
  | 17 | 19 | 21 => PyInt (le_signed raw)
  | 22 => PyFloat (to_double (ieee_decode 23 8 (le_unsigned raw)))
  | 23 => PyFloat (to_double (ieee_decode 52 11 (le_unsigned raw)))
  | _ => PyInt 0
  end.

(** The type tag of a payload, when it is long enough to have one. *)
Definition type_tag (payload : bytes) : option Z := nth_error payload 3.

(** The value bytes after the tag. *)
Definition raw_after_tag (payload : bytes) (width : Z) : bytes :=
  firstn (Z.to_nat width) (skipn 4 payload).


(** Two replies to command 0x23 in one buffer: the stale one carries an
    unsigned char (payload of 5 bytes), the later one a float (payload of
    8 bytes). *)
Definition stale_reply : bytes :=
  [1; 16; 1; 240; 1; 112; 7; 2; 35; 16; 0; 100; 0; 16; 25; 3; 150; 60; 4].

Definition fresh_reply : bytes :=
  [1; 16; 1; 240; 1; 112; 10; 2; 35; 16; 0; 100; 0; 22; 0; 0; 128; 63;
   3; 221; 173; 4].

(** Genuine replies whose value is zero: an unsigned char 0 on channel
    100 (command 0x23), and a readout time of 0 seconds (command 0x28). *)
Definition zero_data_reply : bytes :=
  [1; 16; 1; 240; 1; 112; 7; 2; 35; 16; 0; 100; 0; 16; 0; 3; 31; 126; 4].

Definition zero_time_reply : bytes :=
  [1; 16; 1; 240; 1; 112; 6; 2; 40; 16; 0; 0; 0; 0; 3; 211; 135; 4].

(** A reply to the status command 0x26 reporting status 0. *)
Definition status_ok_reply : bytes :=
  [1; 16; 1; 240; 1; 112; 4; 2; 38; 16; 0; 0; 3; 13; 240; 4].

(** A channel number that fits the two bytes of the request. *)
Definition is_channel (ch : Z) : Prop := 0 <= ch < 65536.

(** Looking a status code up in a table of codes and texts. *)
Fixpoint describe (table : list (Z * string)) (code : Z) : option string :=
  match table with
  | [] => None
  | (c, text) :: rest => if code =? c then Some text else describe rest code
  end.

End Spec.
Import Spec.

(* ================================================================== *)
(** * readFromLAN *)
(* ================================================================== *)

Module Lan.

(** What one call of [self.s.recv(1024)] does: it hands over some bytes, or
    it raises [socket.timeout]. *)
Inductive recv_outcome :=
  | Received (new_data : bytes)
  | TimedOut.

(** The [while loops < 10] loop of [readFromLAN], run against the outcomes
    of the successive [recv] calls.  The result is the returned [data] and
    the outcomes not consumed; [None] when the loop is still waiting after
    the last outcome of the script. *)
Fixpoint readFromLAN_loop (script : list recv_outcome) (data : bytes)
    (loops : Z) : option (bytes * list recv_outcome) :=
  if loops <? 10 then
    match script with
    | [] => None
    | Received new_data :: script' =>
        let data := data ++ new_data in
        readFromLAN_loop script' data loops
    | TimedOut :: script' =>
        if len data <? 12
        then readFromLAN_loop script' data (loops + 1)
        else readFromLAN_loop script' data 1000
    end
  else Some (data, script).

Definition readFromLAN (script : list recv_outcome)
    : option (bytes * list recv_outcome) :=
  let data := [] in
  let loops := 0 in
  readFromLAN_loop script data loops.

End Lan.
Import Lan.

(* ================================================================== *)
(** * Further vocabulary *)
(* ================================================================== *)

Module Wire.

(** A frame of the wire layout carrying [payload]: any address and class
    bytes [a2 .. a5], command [c], command version [v], the checksum of the
    body, and any last byte [eot]. *)
Definition wire_body (a2 a3 a4 a5 c v : Z) (payload : bytes) : bytes :=
  [0x01; 0x10; a2; a3; a4; a5; 2 + len payload; 0x02; c; v] ++ payload ++ [0x03].

Definition wire_frame (a2 a3 a4 a5 c v eot : Z) (payload : bytes) : bytes :=
  let body := wire_body a2 a3 a4 a5 c v payload in
  body ++ [calc_crc16 body mod 256; calc_crc16 body / 256] ++ [eot].

(** Putting byte [b'] at index [i]. *)
Definition replace_byte (i : nat) (b' : Z) (frame : bytes) : bytes :=
  match skipn i frame with
  | _ :: rest => firstn i frame ++ b' :: rest
  | [] => frame
  end.

(** The range of the integer types of a tagged scalar. *)
Definition int_range (tag v : Z) : Prop :=
  match tag with
  | 16 => 0 <= v <= 255
  | 17 => -128 <= v <= 127
  | 18 => 0 <= v <= 65535
  | 19 => -32768 <= v <= 32767
  | 20 => 0 <= v <= 4294967295
  | 21 => -2147483648 <= v <= 2147483647
  | _ => v = 0
  end.

(** One entry of a multi-channel payload: the sub-length byte, then the
    entry (status, channel, type tag, value). *)
Definition entry_bytes (entry : bytes) : bytes := len entry :: entry.

Definition multi_payload (status : Z) (entries : list bytes) : bytes :=
  status :: len entries :: flat_map entry_bytes entries.

(** An entry that holds its tag and, for a recognised tag, all the bytes
    of its value. *)
Definition entry_complete (entry : bytes) : Prop :=
  exists tag,
    type_tag entry = Some tag
    /\ forall w, tag_width tag = Some w -> 4 + w <= len entry.

(** The results of a list of decodings, up to the first failure. *)
Fixpoint collect (rs : list (result value)) : result (list value) :=
  match rs with
  | [] => Ok []
  | r :: rs' => v <- r ;; vs <- collect rs' ;; Ok (v :: vs)
  end.

(** The channel numbers of a request, two little-endian bytes each. *)
Definition channels_le (chlist : list Z) : bytes :=
  flat_map (fun ch => [ch mod 256; ch / 256]) chlist.

(** The bytes a script of [recv] outcomes delivers, and its timeouts. *)
Definition received (script : list recv_outcome) : bytes :=
  flat_map (fun o => match o with Received d => d | TimedOut => [] end) script.

Definition timeouts (script : list recv_outcome) : Z :=
  len (filter (fun o => match o with TimedOut => true | _ => false end) script).


End Wire.
Import Wire.

(* ================================================================== *)
(** * Slices, byte strings and integers *)
(* ================================================================== *)

Section Slices.

Lemma len_app (a b : bytes) : len (a ++ b) = len a + len b.
Proof. unfold len. rewrite length_app. lia. Qed.

Lemma len_nonneg (a : bytes) : 0 <= len a.
Proof. unfold len. lia. Qed.

Lemma len_cons (x : Z) (a : bytes) : len (x :: a) = 1 + len a.
Proof. unfold len. simpl List.length. lia. Qed.

Lemma len_nil : len (@nil Z) = 0.
Proof. reflexivity. Qed.

Lemma bytes_eqb_eq (a b : bytes) : bytes_eqb a b = true <-> a = b.
Proof.
  revert b. induction a as [|x a IH]; intros [|y b]; simpl; split;
    try congruence; try reflexivity.
  - intros H. apply andb_true_iff in H as [H1 H2].
    apply Z.eqb_eq in H1. apply IH in H2. congruence.
  - intros H. injection H as -> ->. rewrite Z.eqb_refl. simpl. now apply IH.
Qed.

Lemma bytes_eqb_refl (a : bytes) : bytes_eqb a a = true.
Proof. now apply bytes_eqb_eq. Qed.

Lemma bytes_eqb_neq (a b : bytes) : a <> b -> bytes_eqb a b = false.
Proof.
  intros H. destruct (bytes_eqb a b) eqn:E; [|reflexivity].
  apply bytes_eqb_eq in E. contradiction.
Qed.

(** A slice with both bounds inside the object. *)
Lemma slice_inside (l : bytes) (a b : Z) :
  0 <= a -> a <= b -> b <= len l ->
  slice l (Some a) (Some b) = firstn (Z.to_nat (b - a)) (skipn (Z.to_nat a) l).
Proof.
  intros Ha Hab Hb. unfold slice, clamp.
  destruct (a <? 0) eqn:E1; [lia|]. destruct (b <? 0) eqn:E2; [lia|].
  rewrite !Z.min_l by lia. reflexivity.
Qed.

(** The middle of three pieces. *)
Lemma slice_mid (pre mid suf : bytes) (a b : Z) :
  a = len pre -> b = len pre + len mid ->
  slice (pre ++ mid ++ suf) (Some a) (Some b) = mid.
Proof.
  intros -> ->. pose proof (len_nonneg pre). pose proof (len_nonneg mid).
  pose proof (len_nonneg suf).
  rewrite slice_inside by (rewrite ?len_app; lia).
  unfold len. rewrite Nat2Z.id.
  rewrite skipn_app, skipn_all, Nat.sub_diag. simpl.
  replace (Z.to_nat _) with (List.length mid) by lia.
  rewrite firstn_app, firstn_all, Nat.sub_diag. simpl. apply app_nil_r.
Qed.

(** [l[:-k]] drops the last [k] bytes. *)
Lemma slice_drop_last (xs ys : bytes) (k : Z) :
  0 < k -> k = len ys ->
  slice (xs ++ ys) None (Some (- k)) = xs.
Proof.
  intros Hk ->. unfold slice, clamp. pose proof (len_nonneg xs).
  destruct (- len ys <? 0) eqn:E; [|lia].
  rewrite len_app, Z.max_l by lia. simpl skipn.
  replace (Z.to_nat _) with (List.length xs) by (unfold len; lia).
  rewrite firstn_app, firstn_all, Nat.sub_diag. simpl. apply app_nil_r.
Qed.

(** [l[-j:-k]] counted from the end. *)
Lemma slice_from_end (l : bytes) (j k : Z) :
  0 < k -> k <= j -> j <= len l ->
  slice l (Some (- j)) (Some (- k)) = slice l (Some (len l - j)) (Some (len l - k)).
Proof.
  intros Hk Hkj Hj. unfold slice, clamp.
  destruct (- j <? 0) eqn:E1; [|lia]. destruct (- k <? 0) eqn:E2; [|lia].
  destruct (len l - j <? 0) eqn:E3; [lia|].
  destruct (len l - k <? 0) eqn:E4; [lia|].
  rewrite !Z.max_l, !Z.min_l by lia.
  now replace (len l + - j) with (len l - j) by lia;
      replace (len l + - k) with (len l - k) by lia.
Qed.

(** [l[a:]] drops the first [a] bytes. *)
Lemma slice_drop_first (xs ys : bytes) (a : Z) :
  a = len xs -> slice (xs ++ ys) (Some a) None = ys.
Proof.
  intros ->. unfold slice, clamp. pose proof (len_nonneg xs).
  pose proof (len_nonneg ys).
  destruct (len xs <? 0) eqn:E; [lia|].
  rewrite len_app, Z.min_l by lia.
  replace (Z.to_nat (len xs)) with (List.length xs) by (unfold len; lia).
  rewrite skipn_app, skipn_all, Nat.sub_diag. simpl.
  replace (Z.to_nat _) with (List.length ys) by (unfold len; lia).
  apply firstn_all.
Qed.

(** A slice that ends inside a prefix does not see what follows it. *)
Lemma slice_app_l (pre x : bytes) (a b : Z) :
  0 <= a -> a <= b -> b <= len pre ->
  slice (pre ++ x) (Some a) (Some b) = slice pre (Some a) (Some b).
Proof.
  intros Ha Hab Hb. pose proof (len_nonneg x).
  rewrite !slice_inside by (rewrite ?len_app; lia).
  rewrite skipn_app, firstn_app.
  replace (Z.to_nat (b - a) - List.length (skipn (Z.to_nat a) pre))%nat with 0%nat.
  - simpl. apply app_nil_r.
  - rewrite length_skipn. unfold len in *. lia.
Qed.

(** A slice that starts after a prefix does not see the prefix. *)
Lemma slice_app_r (pre x : bytes) (a b : Z) :
  len pre <= a -> a <= b -> b <= len pre + len x ->
  slice (pre ++ x) (Some a) (Some b)
  = slice x (Some (a - len pre)) (Some (b - len pre)).
Proof.
  intros Ha Hab Hb. pose proof (len_nonneg pre).
  rewrite !slice_inside by (rewrite ?len_app; lia).
  rewrite skipn_app.
  rewrite (skipn_all2 pre) by (unfold len in *; lia). simpl.
  f_equal; [lia|]. f_equal. unfold len. lia.
Qed.

Lemma int_from_bytes_1 (x : Z) : int_from_bytes [x] = x.
Proof. simpl. lia. Qed.

Lemma to_bytes_1 (z : Z) : is_byte z -> to_bytes 1 z = Ok [z].
Proof.
  intros [H0 H1]. unfold to_bytes.
  change (256 ^ Z.of_nat 1) with 256.
  destruct (0 <=? z) eqn:E0; [|lia]. destruct (z <? 256) eqn:E1; [|lia].
  simpl. now rewrite Z.mod_small by lia.
Qed.

Lemma to_bytes_2 (z : Z) :
  0 <= z < 65536 -> to_bytes 2 z = Ok [z mod 256; z / 256].
Proof.
  intros [H0 H1]. unfold to_bytes.
  change (256 ^ Z.of_nat 2) with 65536.
  destruct (0 <=? z) eqn:E0; [|lia]. destruct (z <? 65536) eqn:E1; [|lia].
  simpl. rewrite (Z.mod_small (z / 256)); [reflexivity|].
  split; [apply Z.div_pos; lia | apply Z.div_lt_upper_bound; lia].
Qed.

(** The two bytes of a 16-bit number determine it. *)
Lemma le16_inj (x y : Z) :
  x mod 256 = y mod 256 -> x / 256 = y / 256 -> x = y.
Proof.
  intros Hm Hd. rewrite (Z.div_mod x 256), (Z.div_mod y 256) by lia. congruence.
Qed.

End Slices.

(* ================================================================== *)
(** * The checksum engine *)
(* ================================================================== *)

Section Checksum.

Lemma land_1_testbit (a : Z) : Z.land a 1 = Z.b2z (Z.testbit a 0).
Proof.
  change 1 with (Z.ones 1). rewrite Z.land_ones by lia.
  change (2 ^ 1) with 2. symmetry. apply Z.bit0_mod.
Qed.

(** The loop body in terms of the bit step. *)
Lemma crc_bit_step_eq (c b : Z) :
  crc_bit_step (c, b) = (bit_step c (Z.testbit b 0), Z.shiftr b 1).
Proof.
  unfold crc_bit_step, bit_step. rewrite !land_1_testbit.
  destruct (Z.testbit c 0), (Z.testbit b 0); reflexivity.
Qed.

Lemma crc_iter (n : nat) (c b : Z) :
  Nat.iter n crc_bit_step (c, b)
  = (fold_left bit_step
       (map (fun k => Z.testbit b (Z.of_nat k)) (seq 0 n)) c,
     Z.shiftr b (Z.of_nat n)).
Proof.
  induction n as [|n IH].
  - reflexivity.
  - rewrite seq_S, map_app, fold_left_app. simpl Nat.iter. rewrite IH.
    rewrite crc_bit_step_eq. cbn [map fold_left Nat.add]. f_equal.
    + f_equal. rewrite Z.shiftr_spec by lia. f_equal; lia.
    + rewrite Z.shiftr_shiftr by lia. f_equal; lia.
Qed.

Lemma calc_next_crc_byte_eq (c b : Z) :
  calc_next_crc_byte c b = checksum_byte c b.
Proof. unfold calc_next_crc_byte. now rewrite crc_iter. Qed.

Lemma fold_left_ext_eq {A B} (f g : A -> B -> A) :
  (forall a b, f a b = g a b) ->
  forall l a, fold_left f l a = fold_left g l a.
Proof.
  intros H l. induction l as [|x l IH]; intros a; simpl; [reflexivity|].
  now rewrite H, IH.
Qed.

Lemma calc_crc16_eq (data : bytes) : calc_crc16 data = checksum data.
Proof. apply fold_left_ext_eq, calc_next_crc_byte_eq. Qed.

(** The running value stays within 16 bits. *)
Lemma lxor_u16 (a b : Z) : is_u16 a -> is_u16 b -> is_u16 (Z.lxor a b).
Proof.
  unfold is_u16. intros [Ha0 Ha1] [Hb0 Hb1]. split.
  - now apply Z.lxor_nonneg.
  - destruct (Z.eq_dec (Z.lxor a b) 0) as [->|Hz]; [lia|].
    assert (0 <= Z.lxor a b) by now apply Z.lxor_nonneg.
    change 65536 with (2 ^ 16). apply Z.log2_lt_pow2; [lia|].
    pose proof (Z.log2_lxor a b Ha0 Hb0) as Hl.
    assert (Z.log2 a < 16).
    { destruct (Z.eq_dec a 0) as [->|]; [simpl; lia|].
      apply Z.log2_lt_pow2; lia. }
    assert (Z.log2 b < 16).
    { destruct (Z.eq_dec b 0) as [->|]; [simpl; lia|].
      apply Z.log2_lt_pow2; lia. }
    lia.
Qed.

Lemma shiftr1_u16 (c : Z) : is_u16 c -> 0 <= Z.shiftr c 1 < 32768.
Proof.
  unfold is_u16. intros [H0 H1]. rewrite Z.shiftr_div_pow2 by lia.
  change (2 ^ 1) with 2. split.
  - apply Z.div_pos; lia.
  - apply Z.div_lt_upper_bound; lia.
Qed.

Lemma bit_step_u16 (c : Z) (x : bool) : is_u16 c -> is_u16 (bit_step c x).
Proof.
  intros Hc. unfold bit_step. apply lxor_u16.
  - pose proof (shiftr1_u16 c Hc). unfold is_u16. lia.
  - destruct (xorb _ _); unfold is_u16; lia.
Qed.

Lemma bit_run_u16 (bits : list bool) (c : Z) :
  is_u16 c -> is_u16 (fold_left bit_step bits c).
Proof.
  revert c. induction bits as [|x bits IH]; intros c Hc; simpl; [exact Hc|].
  apply IH, bit_step_u16, Hc.
Qed.

Lemma calc_next_crc_byte_u16 (c b : Z) :
  is_u16 c -> is_u16 (calc_next_crc_byte c b).
Proof. intros Hc. rewrite calc_next_crc_byte_eq. now apply bit_run_u16. Qed.

Lemma crc_run_u16 (data : bytes) (c : Z) :
  is_u16 c -> is_u16 (fold_left calc_next_crc_byte data c).
Proof.
  revert c. induction data as [|b data IH]; intros c Hc; simpl; [exact Hc|].
  apply IH, calc_next_crc_byte_u16, Hc.
Qed.

Lemma calc_crc16_u16 (data : bytes) : is_u16 (calc_crc16 data).
Proof. apply crc_run_u16. unfold is_u16. lia. Qed.

(** The feedback decision of a step shows in bit 15 of its result. *)
Lemma bit_step_top (c : Z) (x : bool) :
  is_u16 c -> Z.testbit (bit_step c x) 15 = xorb (Z.testbit c 0) x.
Proof.
  intros Hc. unfold bit_step. rewrite Z.lxor_spec.
  assert (Z.testbit (Z.shiftr c 1) 15 = false) as ->.
  { pose proof (shiftr1_u16 c Hc) as [H0 H1].
    destruct (Z.eq_dec (Z.shiftr c 1) 0) as [->|Hz]; [reflexivity|].
    apply Z.bits_above_log2; [lia|].
    apply Z.log2_lt_pow2; [lia|]. change (2 ^ 15) with 32768. lia. }
  destruct (xorb (Z.testbit c 0) x); reflexivity.
Qed.

(** A step can be undone: for a fixed input bit it is injective. *)
Lemma bit_step_inj (c c' : Z) (x : bool) :
  is_u16 c -> is_u16 c' -> bit_step c x = bit_step c' x -> c = c'.
Proof.
  intros Hc Hc' E.
  assert (Z.testbit c 0 = Z.testbit c' 0) as E0.
  { pose proof (bit_step_top c x Hc) as T. rewrite E in T.
    rewrite (bit_step_top c' x Hc') in T.
    destruct (Z.testbit c 0), (Z.testbit c' 0), x; simpl in T; congruence. }
  unfold bit_step in E. rewrite E0 in E.
  apply (f_equal (fun z => Z.lxor z
           (if xorb (Z.testbit c' 0) x then 0x8408 else 0))) in E.
  rewrite !Z.lxor_assoc, !Z.lxor_nilpotent, !Z.lxor_0_r in E.
  rewrite (Z.div_mod c 2), (Z.div_mod c' 2) by lia.
  rewrite !Z.shiftr_div_pow2 in E by lia. change (2 ^ 1) with 2 in E.
  rewrite <- !Z.bit0_mod, E0, E. reflexivity.
Qed.

Lemma bit_run_inj (bits : list bool) (c c' : Z) :
  is_u16 c -> is_u16 c' ->
  fold_left bit_step bits c = fold_left bit_step bits c' -> c = c'.
Proof.
  revert c c'. induction bits as [|x bits IH]; intros c c' Hc Hc' E; simpl in E.
  - exact E.
  - apply (bit_step_inj c c' x Hc Hc').
    apply IH; auto using bit_step_u16.
Qed.

(** Flipping one input bit changes the running value for good. *)
Lemma bit_run_flip (pre suf : list bool) (x : bool) (c : Z) :
  is_u16 c ->
  fold_left bit_step (pre ++ x :: suf) c
  <> fold_left bit_step (pre ++ negb x :: suf) c.
Proof.
  intros Hc E. rewrite !fold_left_app in E. simpl in E.
  set (c1 := fold_left bit_step pre c) in *.
  assert (is_u16 c1) as H1 by now apply bit_run_u16.
  apply bit_run_inj in E; auto using bit_step_u16.
  pose proof (bit_step_top c1 x H1) as T. rewrite E in T.
  rewrite bit_step_top in T by assumption.
  destruct (Z.testbit c1 0), x; simpl in T; congruence.
Qed.

End Checksum.

(** The published check value of this CRC (CRC-16/MCRF4XX) for the ASCII
    digits "123456789". *)
Example calc_crc16_check_value :
  calc_crc16 [49; 50; 51; 52; 53; 54; 55; 56; 57] = 0x6F91.
Proof. reflexivity. Qed.

(** C2: [calc_crc16] is the CRC-16 the specification describes (start value
    0xFFFF, byte by byte, eight bit steps per byte, each XORing the
    right-shifted running value with 0x8408 exactly when the low bit of the
    running value and the current bit of the byte differ), and the checksum
    of the empty byte sequence is 0xFFFF. *)
Theorem calc_crc16_matches_spec :
  (forall data : bytes, calc_crc16 data = checksum data)
  /\ calc_crc16 [] = 0xFFFF.
Proof. split; [exact calc_crc16_eq | reflexivity]. Qed.

(* ================================================================== *)
(** * The frame codec *)
(* ================================================================== *)

Section FrameCodec.

Lemma LEN_count (payload : bytes) (n : Z) :
  fold_left (fun LEN (_ : Z) => LEN + 1) payload n = n + len payload.
Proof.
  revert n. induction payload as [|b payload IH]; intros n; simpl.
  - rewrite len_nil. lia.
  - rewrite IH, len_cons. lia.
Qed.

Lemma send_request_tx_ok (r c v : Z) (p : bytes) :
  is_byte r -> is_byte c -> is_byte v -> len p <= 253 ->
  let body := [0x01; 0x10; r; 0x70; 0x01; 0xF0; 2 + len p; 0x02; c; v]
                ++ p ++ [0x03] in
  send_request_tx r c v p
  = Ok {| tx_frame := body ++ [calc_crc16 body mod 256; calc_crc16 body / 256]
                           ++ [0x04];
          COMMAND := [c];
          COMMAND_VERSION := [v] |}.
Proof.
  intros Hr Hc Hv Hp body. unfold send_request_tx.
  pose proof (len_nonneg p) as Hp0.
  rewrite (to_bytes_1 r Hr), (to_bytes_1 1) by (unfold is_byte; lia).
  cbn [bind]. rewrite LEN_count.
  rewrite (to_bytes_1 (2 + len p)) by (unfold is_byte; lia).
  rewrite (to_bytes_1 c Hc), (to_bytes_1 v Hv). cbn [bind].
  assert ((if len p >? 0
           then SOH ++ VERSION ++ [r] ++ TO_CLASS ++ [1] ++ FROM_CLASS
                    ++ [2 + len p] ++ STX ++ [c] ++ [v] ++ p ++ ETX
           else SOH ++ VERSION ++ [r] ++ TO_CLASS ++ [1] ++ FROM_CLASS
                    ++ [2 + len p] ++ STX ++ [c] ++ [v] ++ ETX) = body) as ->.
  { destruct (len p >? 0) eqn:E; [reflexivity|].
    destruct p as [|b p]; [reflexivity|]. rewrite len_cons in E.
    pose proof (len_nonneg p). lia. }
  rewrite to_bytes_2 by apply calc_crc16_u16. reflexivity.
Qed.

(** The decode step accepts any frame of the wire layout whose checksum
    bytes are right, whatever the address fields and the last byte. *)
Lemma send_request_rx_accepts (a2 a3 a4 a5 c v eot : Z) (p : bytes) :
  let body := [0x01; 0x10; a2; a3; a4; a5; 2 + len p; 0x02; c; v] ++ p ++ [0x03] in
  send_request_rx
    (body ++ [calc_crc16 body mod 256; calc_crc16 body / 256] ++ [eot]) [c] [v]
  = Ok (PyBytes p).
Proof.
  intros body.
  set (hdr := [0x01; 0x10; a2; a3; a4; a5; 2 + len p; 0x02; c; v]) in *.
  set (cs := [calc_crc16 body mod 256; calc_crc16 body / 256]).
  set (F := body ++ cs ++ [eot]).
  pose proof (len_nonneg p) as Hp0.
  assert (len hdr = 10) as Hh by reflexivity.
  assert (len body = 11 + len p) as Hb.
  { unfold body. rewrite !len_app, Hh. change (len [3]) with 1. lia. }
  assert (len F = 14 + len p) as HF.
  { unfold F. rewrite !len_app, Hb. change (len cs) with 2.
    change (len [eot]) with 1. lia. }
  assert (F = hdr ++ (p ++ [3] ++ cs ++ [eot])) as F1.
  { unfold F, body. now rewrite <- !app_assoc. }
  assert (forall a b, 0 <= a -> a <= b -> b <= 10 ->
            slice F (Some a) (Some b) = slice hdr (Some a) (Some b)) as Hhdr.
  { intros a b Ha Hab Hb10. rewrite F1. apply slice_app_l; lia. }
  unfold send_request_rx.
  destruct (len F =? 0) eqn:E0; [lia|].
  rewrite (Hhdr 6 7) by lia. change (slice hdr (Some 6) (Some 7)) with [2 + len p].
  rewrite int_from_bytes_1.
  assert (slice F (Some (8 + (2 + len p))) (Some (9 + (2 + len p))) = [3]) as ->.
  { replace F with ((hdr ++ p) ++ [3] ++ cs ++ [eot])
      by (rewrite F1; now rewrite <- app_assoc).
    apply slice_mid; rewrite len_app, Hh; [lia | change (len [3]) with 1; lia]. }
  change (bytes_eqb [3] ETX) with true. cbn [negb].
  destruct (len F >? 2 + len p + 12) eqn:E1; [lia|].
  assert (slice F None (Some (-3)) = body) as ->.
  { unfold F. apply (slice_drop_last body (cs ++ [eot]) 3); [lia|reflexivity]. }
  rewrite to_bytes_2 by apply calc_crc16_u16. cbn [bind]. fold cs.
  assert (slice F (Some (-3)) (Some (-1)) = cs) as ->.
  { transitivity (slice F (Some (len F - 3)) (Some (len F - 1))).
    - apply (slice_from_end F 3 1); lia.
    - unfold F at 1.
      apply slice_mid; rewrite HF, ?Hb; [lia | change (len cs) with 2; lia]. }
  rewrite bytes_eqb_refl. cbn [negb].
  rewrite (Hhdr 0 1), (Hhdr 1 2), (Hhdr 7 8), (Hhdr 8 9), (Hhdr 9 10) by lia.
  change (slice hdr (Some 0) (Some 1)) with SOH.
  change (slice hdr (Some 1) (Some 2)) with VERSION.
  change (slice hdr (Some 7) (Some 8)) with STX.
  change (slice hdr (Some 8) (Some 9)) with [c].
  change (slice hdr (Some 9) (Some 10)) with [v].
  rewrite !bytes_eqb_refl. cbn [negb].
  do 2 f_equal. rewrite F1. apply slice_mid; rewrite Hh; lia.
Qed.

End FrameCodec.

(** C3: for a receiver address [r], a command [c], a command version [v]
    (each one byte) and a payload [p] of at most 253 bytes, the request
    frame is 0x01, 0x10, r, 0x70, 0x01, 0xF0, 2 + len(p), 0x02, c, v, the
    bytes of [p], 0x03, the low and the high byte of the CRC-16 of all that
    precedes, and 0x04. *)
Theorem tx_frame_layout (r c v : Z) (p : bytes) :
  is_byte r -> is_byte c -> is_byte v -> len p <= 253 ->
  exists rq,
    send_request_tx r c v p = Ok rq
    /\ let body := [0x01; 0x10; r; 0x70; 0x01; 0xF0; 2 + len p; 0x02; c; v]
                     ++ p ++ [0x03] in
       tx_frame rq
       = body ++ [calc_crc16 body mod 256; calc_crc16 body / 256] ++ [0x04].
Proof.
  intros Hr Hc Hv Hp. eexists. split.
  - apply send_request_tx_ok; assumption.
  - reflexivity.
Qed.

Lemma tx_frame_layout_witness :
  exists rq,
    send_request_tx 1 0x23 0x10 [100; 0] = Ok rq
    /\ tx_frame rq
       = [0x01; 0x10; 0x01; 0x70; 0x01; 0xF0; 0x04; 0x02; 0x23; 0x10;
          0x64; 0x00; 0x03; 0x61; 0xD9; 0x04].
Proof.
  apply (tx_frame_layout 1 0x23 0x10 [100; 0]);
    unfold is_byte, len; simpl; lia.
Defined.



(* ================================================================== *)
(** * Tampering with a received frame *)
(* ================================================================== *)

Section Tamper.

Lemma byte_bits_flip (b k : Z) :
  0 <= k < 8 ->
  exists pre x suf,
    byte_bits b = pre ++ x :: suf
    /\ byte_bits (Z.lxor b (Z.shiftl 1 k)) = pre ++ negb x :: suf.
Proof.
  intros Hk.
  assert (forall j, 0 <= j ->
            Z.testbit (Z.lxor b (Z.shiftl 1 k)) j
            = xorb (Z.testbit b j) (j =? k)) as T.
  { intros j Hj. rewrite Z.lxor_spec, Z.shiftl_spec by lia. f_equal.
    destruct (j =? k) eqn:E.
    - apply Z.eqb_eq in E. subst. now rewrite Z.sub_diag.
    - apply Z.eqb_neq in E. destruct (Z.lt_ge_cases j k).
      + apply Z.testbit_neg_r. lia.
      + apply (Z.bits_above_log2 1); simpl; lia. }
  assert (k = 0 \/ k = 1 \/ k = 2 \/ k = 3 \/ k = 4 \/ k = 5 \/ k = 6 \/ k = 7)
    as Hcase by lia.
  unfold byte_bits. cbn [seq map].
  rewrite !T by lia. cbn [Z.of_nat Pos.of_succ_nat Pos.succ].
  repeat (destruct Hcase as [->|Hcase]); [ .. | subst k];
    cbn [Z.eqb Pos.eqb]; rewrite ?xorb_false_r, ?xorb_true_r.
  - now exists [], (Z.testbit b 0), (skipn 1 (byte_bits b)).
  - now exists (firstn 1 (byte_bits b)), (Z.testbit b 1), (skipn 2 (byte_bits b)).
  - now exists (firstn 2 (byte_bits b)), (Z.testbit b 2), (skipn 3 (byte_bits b)).
  - now exists (firstn 3 (byte_bits b)), (Z.testbit b 3), (skipn 4 (byte_bits b)).
  - now exists (firstn 4 (byte_bits b)), (Z.testbit b 4), (skipn 5 (byte_bits b)).
  - now exists (firstn 5 (byte_bits b)), (Z.testbit b 5), (skipn 6 (byte_bits b)).
  - now exists (firstn 6 (byte_bits b)), (Z.testbit b 6), (skipn 7 (byte_bits b)).
  - now exists (firstn 7 (byte_bits b)), (Z.testbit b 7), [].
Qed.

Lemma calc_next_crc_byte_flip (c b k : Z) :
  is_u16 c -> 0 <= k < 8 ->
  calc_next_crc_byte c b <> calc_next_crc_byte c (Z.lxor b (Z.shiftl 1 k)).
Proof.
  intros Hc Hk. rewrite !calc_next_crc_byte_eq. unfold checksum_byte.
  destruct (byte_bits_flip b k Hk) as (pre & x & suf & -> & ->).
  now apply bit_run_flip.
Qed.

Lemma calc_next_crc_byte_inj (c c' b : Z) :
  is_u16 c -> is_u16 c' ->
  calc_next_crc_byte c b = calc_next_crc_byte c' b -> c = c'.
Proof.
  intros Hc Hc'. rewrite !calc_next_crc_byte_eq. now apply bit_run_inj.
Qed.

Lemma crc_run_inj (data : bytes) (c c' : Z) :
  is_u16 c -> is_u16 c' ->
  fold_left calc_next_crc_byte data c = fold_left calc_next_crc_byte data c' ->
  c = c'.
Proof.
  revert c c'. induction data as [|b data IH]; intros c c' Hc Hc' E; simpl in E.
  - exact E.
  - apply (calc_next_crc_byte_inj c c' b Hc Hc').
    apply IH; auto using calc_next_crc_byte_u16.
Qed.

(** One flipped bit anywhere in the data changes the checksum. *)
Lemma calc_crc16_flip (pre suf : bytes) (b k : Z) :
  0 <= k < 8 ->
  calc_crc16 (pre ++ b :: suf)
  <> calc_crc16 (pre ++ Z.lxor b (Z.shiftl 1 k) :: suf).
Proof.
  intros Hk E. unfold calc_crc16 in E. rewrite !fold_left_app in E.
  simpl in E.
  assert (is_u16 (fold_left calc_next_crc_byte pre 65535)) as H1.
  { apply crc_run_u16. unfold is_u16. lia. }
  apply crc_run_inj in E; auto using calc_next_crc_byte_u16.
  now apply calc_next_crc_byte_flip in E.
Qed.

(** A non-empty slice starts inside the object. *)
Lemma slice_nonempty (l : bytes) (a b : Z) :
  0 <= a -> slice l (Some a) (Some b) <> [] -> a < len l.
Proof.
  intros Ha Hs. destruct (Z.lt_ge_cases a (len l)) as [|Hge]; [assumption|].
  exfalso. apply Hs. unfold slice, clamp.
  destruct (a <? 0) eqn:E; [lia|]. rewrite (Z.min_r a) by lia.
  rewrite skipn_all2 by (unfold len; lia). apply firstn_nil.
Qed.

(** What acceptance of a frame says about its length and its trailer. *)
Lemma send_request_rx_ok_inv (f cmd ver p : bytes) :
  valid_frame cmd ver f p ->
  let crc := calc_crc16 (slice f None (Some (-3))) in
  8 <= len f
  /\ slice f (Some (8 + declared_length f)) (Some (9 + declared_length f)) = ETX
  /\ slice f (Some (-3)) (Some (-1)) = [crc mod 256; crc / 256].
Proof.
  intros [Hok Hlen] crc. unfold send_request_rx in Hok.
  fold (declared_length f) in Hok.
  destruct (len f =? 0) eqn:E0; [discriminate|].
  destruct (bytes_eqb _ ETX) eqn:E1; cbn [negb] in Hok; [|discriminate].
  destruct (len f >? declared_length f + 12) eqn:E2; [lia|].
  fold crc in Hok. rewrite to_bytes_2 in Hok by apply calc_crc16_u16.
  cbn [bind] in Hok.
  destruct (bytes_eqb _ (slice f (Some (-3)) (Some (-1)))) eqn:E3;
    cbn [negb] in Hok; [|discriminate].
  destruct (bytes_eqb _ SOH); cbn [negb] in Hok; [|discriminate].
  destruct (bytes_eqb _ VERSION); cbn [negb] in Hok; [|discriminate].
  destruct (bytes_eqb _ STX) eqn:E4; cbn [negb] in Hok; [|discriminate].
  apply bytes_eqb_eq in E1, E3, E4. repeat split; [ | assumption | now symmetry].
  assert (7 < len f); [|lia].
  apply (slice_nonempty f 7 8); [lia|]. rewrite E4. discriminate.
Qed.

End Tamper.

Section TamperFrame.

Lemma slice_same_outside (pre rest : bytes) (b b' a c : Z) :
  (0 <= a /\ a <= c /\ c <= len pre)
  \/ (len pre + 1 <= a /\ a <= c /\ c <= len pre + 1 + len rest) ->
  slice (pre ++ b :: rest) (Some a) (Some c)
  = slice (pre ++ b' :: rest) (Some a) (Some c).
Proof.
  intros [(H1 & H2 & H3) | (H1 & H2 & H3)].
  - now rewrite !slice_app_l by lia.
  - replace (pre ++ b :: rest) with ((pre ++ [b]) ++ rest)
      by now rewrite <- app_assoc.
    replace (pre ++ b' :: rest) with ((pre ++ [b']) ++ rest)
      by now rewrite <- app_assoc.
    assert (forall x : Z, len (pre ++ [x]) = len pre + 1) as Hx
      by (intros x; now rewrite len_app).
    rewrite !slice_app_r by (rewrite ?Hx; lia).
    rewrite !Hx. reflexivity.
Qed.

Lemma slice_drop_last3 (pre rest : bytes) (b : Z) :
  3 <= len rest ->
  slice (pre ++ b :: rest) None (Some (-3))
  = pre ++ b :: firstn (List.length rest - 3) rest.
Proof.
  intros H3.
  rewrite <- (firstn_skipn (List.length rest - 3) rest) at 1.
  replace (pre ++ b :: firstn (List.length rest - 3) rest
               ++ skipn (List.length rest - 3) rest)
    with ((pre ++ b :: firstn (List.length rest - 3) rest)
            ++ skipn (List.length rest - 3) rest)
    by now rewrite <- app_assoc.
  apply (slice_drop_last _ _ 3); [lia|].
  unfold len in *. rewrite length_skipn. lia.
Qed.

End TamperFrame.

(** C9: tamper detection.  In a valid response frame, flipping any single
    bit of a byte of the inner payload (indices 10 up to, not including,
    8 + length; the length byte, the markers and the checksum bytes are left
    as they were) makes [send_request] raise the checksum error: the
    checksum it calculates differs from the received one. *)
Theorem payload_bit_flip_detected (f cmd ver p : bytes) (i : nat) (k : Z) :
  valid_frame cmd ver f p ->
  10 <= Z.of_nat i < 8 + declared_length f ->
  0 <= k < 8 ->
  exists calculated received,
    send_request_rx (flip_bit i k f) cmd ver
    = Raise (UMBError (ChecksumFailed calculated received))
    /\ calculated <> received.
Proof.
  intros V Hi Hk.
  destruct (send_request_rx_ok_inv f cmd ver p V) as (Hne & Hetx & Hcs).
  destruct V as [_ Hlen]. unfold flip_bit.
  pose proof (firstn_skipn i f) as Hf.
  assert (List.length (firstn i f) = i) as Hpre.
  { rewrite length_firstn. unfold len in *. lia. }
  destruct (skipn i f) as [|b rest] eqn:Es.
  { exfalso. apply (f_equal (@List.length Z)) in Es.
    rewrite length_skipn in Es. unfold len in *. simpl in Es. lia. }
  remember (firstn i f) as pre eqn:Epre. clear Epre Es. subst f.
  set (b' := Z.lxor b (Z.shiftl 1 k)).
  set (L := declared_length (pre ++ b :: rest)) in *.
  assert (len pre = Z.of_nat i) as Hp by (unfold len; lia).
  assert (len rest = L + 12 - Z.of_nat i - 1) as Hr.
  { rewrite len_app, len_cons in Hlen. lia. }
  assert (len (pre ++ b' :: rest) = L + 12) as Hlen'.
  { rewrite len_app, len_cons. lia. }
  assert (declared_length (pre ++ b' :: rest) = L) as HL.
  { unfold L, declared_length. f_equal. symmetry.
    apply slice_same_outside. left. lia. }
  unfold send_request_rx. fold (declared_length (pre ++ b' :: rest)).
  rewrite HL.
  destruct (len (pre ++ b' :: rest) =? 0) eqn:E0; [lia|].
  rewrite <- (slice_same_outside pre rest b b') by (right; lia).
  rewrite Hetx. change (bytes_eqb ETX ETX) with true. cbn [negb].
  destruct (len (pre ++ b' :: rest) >? L + 12) eqn:E1; [lia|].
  rewrite to_bytes_2 by apply calc_crc16_u16. cbn [bind].
  assert (slice (pre ++ b' :: rest) (Some (-3)) (Some (-1))
          = slice (pre ++ b :: rest) (Some (-3)) (Some (-1))) as ->.
  { transitivity (slice (pre ++ b' :: rest)
                    (Some (len (pre ++ b' :: rest) - 3))
                    (Some (len (pre ++ b' :: rest) - 1))).
    - apply (slice_from_end _ 3 1); lia.
    - rewrite Hlen', <- Hlen.
      rewrite <- (slice_same_outside pre rest b b') by (right; lia).
      symmetry. apply (slice_from_end _ 3 1); lia. }
  rewrite Hcs. rewrite !slice_drop_last3 by lia.
  set (rest1 := firstn (List.length rest - 3) rest).
  set (crc := calc_crc16 (pre ++ b :: rest1)).
  set (crc' := calc_crc16 (pre ++ b' :: rest1)).
  assert ([crc' mod 256; crc' / 256] <> [crc mod 256; crc / 256]) as Hneq.
  { intros E. injection E as Em Ed.
    apply (calc_crc16_flip pre rest1 b k Hk). fold b'. fold crc crc'.
    symmetry. now apply le16_inj. }
  rewrite (bytes_eqb_neq _ _ Hneq). cbn [negb].
  eexists _, _. split; [reflexivity | exact Hneq].
Qed.

Lemma payload_bit_flip_detected_witness :
  exists calculated received,
    send_request_rx
      (flip_bit 10 0 [1; 16; 1; 112; 1; 240; 4; 2; 35; 16; 100; 0; 3; 97; 217; 4])
      [35] [16]
    = Raise (UMBError (ChecksumFailed calculated received))
    /\ calculated <> received.
Proof.
  apply (payload_bit_flip_detected
           [1; 16; 1; 112; 1; 240; 4; 2; 35; 16; 100; 0; 3; 97; 217; 4]
           [35] [16] [100; 0] 10 0).
  - split; reflexivity.
  - vm_compute. split; [discriminate | reflexivity].
  - lia.
Defined.

(* ================================================================== *)
(** * Late data in front of a reply *)
(* ================================================================== *)

(** When the late frame and the reply declare the same length, dropping
    the late frame leaves exactly the reply, and its payload is returned. *)
Lemma stale_trim_same_length (cmd ver f1 p1 f2 p2 : bytes) :
  valid_frame cmd ver f1 p1 ->
  valid_frame cmd ver f2 p2 ->
  declared_length f1 = declared_length f2 ->
  send_request_rx (f1 ++ f2) cmd ver = Ok (PyBytes p2).
Proof.
  intros V1 V2 HL.
  destruct (send_request_rx_ok_inv f1 cmd ver p1 V1) as (Hne1 & Hetx1 & _).
  destruct (send_request_rx_ok_inv f2 cmd ver p2 V2) as (Hne2 & Hetx2 & _).
  destruct V1 as [_ Hlen1]. destruct V2 as [Hok2 Hlen2].
  unfold send_request_rx in *.
  fold (declared_length (f1 ++ f2)). fold (declared_length f2) in Hok2.
  assert (declared_length (f1 ++ f2) = declared_length f1) as ->.
  { unfold declared_length. f_equal. apply slice_app_l; lia. }
  rewrite len_app.
  destruct (len f1 + len f2 =? 0) eqn:E0; [lia|].
  destruct (len f2 =? 0) eqn:E0'; [lia|].
  rewrite slice_app_l by lia. rewrite Hetx1.
  rewrite Hetx2 in Hok2. change (negb (bytes_eqb ETX ETX)) with false in *.
  cbv iota in *.
  destruct (len f1 + len f2 >? declared_length f1 + 12) eqn:E1; [|lia].
  destruct (len f2 >? declared_length f2 + 12) eqn:E1'; [lia|].
  rewrite slice_drop_first by lia. rewrite HL. exact Hok2.
Qed.

(** C8: stale-data trimming.  The buffer [stale_reply ++ fresh_reply] is two
    valid response frames for command 0x23; [send_request] drops the first
    frame and checks the second, but cuts the payload with the length byte
    of the dropped frame: it returns the first 5 bytes of the later frame's
    8-byte payload, not that payload, and [onlineDataQuery] then fails on
    the cut value instead of returning the float. *)
Theorem stale_length_cuts_fresh_payload :
  valid_frame [0x23] [0x10] stale_reply [0; 100; 0; 16; 25]
  /\ valid_frame [0x23] [0x10] fresh_reply [0; 100; 0; 22; 0; 0; 128; 63]
  /\ send_request_rx (stale_reply ++ fresh_reply) [0x23] [0x10]
     = Ok (PyBytes [0; 100; 0; 22; 0])
  /\ onlineDataQuery (stale_reply ++ fresh_reply) 100 1 = Raise StructError
  /\ onlineDataQuery fresh_reply 100 1
     = Ok (PyFloat (S754_finite false 4503599627370496 (-52))).
Proof. repeat split; vm_compute; reflexivity. Qed.

(* ================================================================== *)
(** * The queries when nothing is received *)
(* ================================================================== *)

Section Queries.

Lemma send_request_empty (r c v : Z) (p : bytes) :
  is_byte r -> is_byte c -> is_byte v -> len p <= 253 ->
  send_request [] r c v p = Ok (PyInt 0).
Proof.
  intros Hr Hc Hv Hp. unfold send_request.
  now rewrite send_request_tx_ok by assumption.
Qed.

Lemma to_bytes_2_len (z : Z) :
  is_channel z -> exists bs, to_bytes 2 z = Ok bs /\ len bs = 2.
Proof. intros H. rewrite to_bytes_2 by exact H. now eexists. Qed.

Lemma channel_bytes_ok (chlist : list Z) (acc : bytes) :
  Forall is_channel chlist ->
  exists bs, channel_bytes chlist acc = Ok bs
             /\ len bs = len acc + 2 * len chlist.
Proof.
  intros H. revert acc.
  induction H as [|ch chlist Hch _ IH]; intros acc; cbn [channel_bytes].
  - exists acc. split; [reflexivity|]. rewrite len_nil. lia.
  - destruct (to_bytes_2_len ch Hch) as (c & -> & Hc). cbn [bind].
    destruct (IH (acc ++ c)) as (bs & -> & Hbs).
    exists bs. split; [reflexivity|].
    rewrite Hbs, len_app, Hc, len_cons. lia.
Qed.

Lemma byte_consts : is_byte 0x23 /\ is_byte 0x2F /\ is_byte 0x26
                    /\ is_byte 0x28 /\ is_byte 0x2D /\ is_byte 0x10.
Proof. unfold is_byte. lia. Qed.

End Queries.

(** C7: when [readFromLAN] returns no bytes, every query returns its
    "no value" sentinel and raises nothing: 0 for the single-channel query,
    the empty list for the multi-channel query, -1 for the status query,
    0 for the readout-time query and the empty bytes for the device-info
    query.  The arguments are those a request can carry: a one-byte
    receiver address, two-byte channel numbers, at most 126 channels. *)
Theorem empty_reply_gives_sentinel (receiver_id channel : Z) (chlist : list Z) :
  is_byte receiver_id -> is_channel channel ->
  Forall is_channel chlist -> len chlist <= 126 ->
  onlineDataQuery [] channel receiver_id = Ok (PyInt 0)
  /\ onlineMultiChannelQuery [] chlist receiver_id = Ok (PyList [])
  /\ statusQuery [] receiver_id = Ok (PyInt (-1))
  /\ readoutTimeQuery [] receiver_id = Ok (PyInt 0)
  /\ deviceInfoQuery [] receiver_id = Ok (PyBytes []).
Proof.
  intros Hr Hch Hl Hn.
  destruct byte_consts as (H23 & H2F & H26 & H28 & H2D & H10).
  pose proof (len_nonneg chlist) as Hn0.
  repeat split.
  - unfold onlineDataQuery.
    destruct (to_bytes_2_len channel Hch) as (c & -> & Hc). cbn [bind].
    now rewrite send_request_empty by first [assumption | lia].
  - unfold onlineMultiChannelQuery.
    rewrite to_bytes_1 by (unfold is_byte; lia). cbn [bind].
    destruct (channel_bytes_ok chlist [len chlist] Hl) as (bs & -> & Hbs).
    cbn [bind]. change (len [len chlist]) with 1 in Hbs.
    now rewrite send_request_empty by first [assumption | lia].
  - unfold statusQuery.
    now rewrite send_request_empty by first [assumption | now cbv].
  - unfold readoutTimeQuery.
    now rewrite send_request_empty by first [assumption | now cbv].
  - unfold deviceInfoQuery.
    now rewrite send_request_empty by first [assumption | now cbv].
Qed.

Lemma empty_reply_gives_sentinel_witness :
  onlineDataQuery [] 100 1 = Ok (PyInt 0)
  /\ onlineMultiChannelQuery [] [100; 200; 300] 1 = Ok (PyList [])
  /\ statusQuery [] 1 = Ok (PyInt (-1))
  /\ readoutTimeQuery [] 1 = Ok (PyInt 0)
  /\ deviceInfoQuery [] 1 = Ok (PyBytes []).
Proof.
  apply (empty_reply_gives_sentinel 1 100 [100; 200; 300]).
  - unfold is_byte. lia.
  - unfold is_channel. lia.
  - repeat constructor; unfold is_channel; lia.
  - unfold len. simpl. lia.
Defined.

Section WellFormed.

Lemma wf_firstn (n : nat) (l : bytes) : wf_bytes l -> wf_bytes (firstn n l).
Proof.
  unfold wf_bytes. revert l. induction n as [|n IH]; intros l H; simpl.
  - constructor.
  - destruct H; constructor; auto.
Qed.

Lemma wf_skipn (n : nat) (l : bytes) : wf_bytes l -> wf_bytes (skipn n l).
Proof.
  unfold wf_bytes. revert l. induction n as [|n IH]; intros l H; simpl.
  - exact H.
  - destruct H; [constructor | auto].
Qed.

Lemma wf_slice (l : bytes) (a b : option Z) :
  wf_bytes l -> wf_bytes (slice l a b).
Proof. intros H. unfold slice. apply wf_firstn, wf_skipn, H. Qed.

(** One byte read by [int.from_bytes] is a number below 256. *)
Lemma int_from_one_byte (l : bytes) (a : Z) :
  wf_bytes l -> 0 <= a ->
  0 <= int_from_bytes (slice l (Some a) (Some (a + 1))) <= 255.
Proof.
  intros Hl Ha.
  assert (wf_bytes (slice l (Some a) (Some (a + 1)))) as Hs by now apply wf_slice.
  assert (Nat.le (List.length (slice l (Some a) (Some (a + 1)))) 1) as Hn.
  { unfold slice, clamp. destruct (a <? 0) eqn:E1; [lia|].
    destruct (a + 1 <? 0) eqn:E2; [lia|]. rewrite length_firstn. lia. }
  destruct (slice l (Some a) (Some (a + 1))) as [|x [|y t]]; simpl in *.
  - lia.
  - inversion Hs as [|? ? Hx _]; subst. unfold is_byte in Hx. lia.
  - lia.
Qed.

(** What [send_request] hands back from well-formed received bytes. *)
Lemma send_request_rx_cases (reply cmd ver : bytes) :
  wf_bytes reply -> reply <> [] ->
  match send_request_rx reply cmd ver with
  | Ok (PyBytes p) => wf_bytes p
  | Ok _ => False
  | Raise _ => True
  end.
Proof.
  intros Hwf Hne. unfold send_request_rx.
  destruct (len reply =? 0) eqn:E0.
  { destruct reply; [contradiction|]. rewrite len_cons in E0.
    pose proof (len_nonneg reply). lia. }
  destruct (negb (bytes_eqb _ ETX)); [exact I|].
  rewrite to_bytes_2 by apply calc_crc16_u16. cbn [bind].
  repeat match goal with
         | |- context [if negb (bytes_eqb ?a ?b) then _ else _] =>
             destruct (negb (bytes_eqb a b)); [exact I|]
         end.
  destruct (len reply >? _); apply wf_slice; [apply wf_slice|]; exact Hwf.
Qed.

End WellFormed.

(** C10: with no bytes received the status query returns -1, and every
    status it can decode from received bytes lies in 0..255, so the sentinel
    is never a genuine status; the single-channel and the readout-time query
    return 0 with no bytes received, which is also what they return for the
    genuine replies [zero_data_reply] and [zero_time_reply]. *)
Theorem status_sentinel_is_unambiguous (reply : bytes) (receiver_id channel : Z) :
  is_byte receiver_id -> is_channel channel ->
  wf_bytes reply -> reply <> [] ->
  statusQuery [] receiver_id = Ok (PyInt (-1))
  /\ match statusQuery reply receiver_id with
     | Ok (PyInt s) => 0 <= s <= 255
     | Ok _ => False
     | Raise _ => True
     end
  /\ onlineDataQuery [] channel receiver_id = Ok (PyInt 0)
  /\ onlineDataQuery zero_data_reply channel receiver_id = Ok (PyInt 0)
  /\ readoutTimeQuery [] receiver_id = Ok (PyInt 0)
  /\ readoutTimeQuery zero_time_reply receiver_id = Ok (PyInt 0).
Proof.
  intros Hr Hch Hwf Hne.
  destruct byte_consts as (H23 & H2F & H26 & H28 & H2D & H10).
  assert (forall rx c p, is_byte c -> len p <= 253 ->
            send_request rx receiver_id c 0x10 p = send_request_rx rx [c] [0x10])
    as Hsend.
  { intros rx c p Hc Hp. unfold send_request.
    now rewrite send_request_tx_ok by assumption. }
  repeat split.
  - unfold statusQuery. now rewrite Hsend by first [assumption | now cbv].
  - unfold statusQuery. rewrite Hsend by first [assumption | now cbv].
    pose proof (send_request_rx_cases reply [0x26] [0x10] Hwf Hne) as Hc.
    destruct (send_request_rx reply [0x26] [0x10]) as [[z|p|f|s0| |l]|e];
      try contradiction; cbn [bind]; [|exact I].
    cbn [ne_zero as_bytes bind]. unfold parse_status_request.
    apply (int_from_one_byte p 1 Hc). lia.
  - unfold onlineDataQuery.
    destruct (to_bytes_2_len channel Hch) as (c & -> & Hc). cbn [bind].
    now rewrite Hsend by first [assumption | lia].
  - unfold onlineDataQuery.
    destruct (to_bytes_2_len channel Hch) as (c & -> & Hc). cbn [bind].
    rewrite Hsend by first [assumption | lia]. reflexivity.
  - unfold readoutTimeQuery. now rewrite Hsend by first [assumption | now cbv].
  - unfold readoutTimeQuery. rewrite Hsend by first [assumption | now cbv].
    reflexivity.
Qed.

Lemma status_sentinel_is_unambiguous_witness :
  statusQuery [] 1 = Ok (PyInt (-1))
  /\ match statusQuery status_ok_reply 1 with
     | Ok (PyInt s) => 0 <= s <= 255
     | Ok _ => False
     | Raise _ => True
     end
  /\ onlineDataQuery [] 100 1 = Ok (PyInt 0)
  /\ onlineDataQuery zero_data_reply 100 1 = Ok (PyInt 0)
  /\ readoutTimeQuery [] 1 = Ok (PyInt 0)
  /\ readoutTimeQuery zero_time_reply 1 = Ok (PyInt 0).
Proof.
  apply (status_sentinel_is_unambiguous status_ok_reply 1 100).
  - unfold is_byte. lia.
  - unfold is_channel. lia.
  - repeat constructor; unfold is_byte; lia.
  - discriminate.
Defined.

(* ================================================================== *)
(** * The status table *)
(* ================================================================== *)

Section StatusTable.

Ltac split_on_status status :=
  repeat match goal with
         | |- context [if Z.eqb status ?c then _ else _] =>
             destruct (Z.eqb_spec status c) as [?|?]
         end.

Lemma checkStatus_describe (status : Z) :
  checkStatus status
  = match describe status_table status with
    | Some text => PyStr text
    | None => PyNone
    end.
Proof.
  unfold checkStatus, status_table. cbn [describe].
  split_on_status status; reflexivity.
Qed.

Lemma checkStatus_unlisted (status : Z) :
  In status (map fst status_table) \/ checkStatus status = PyNone.
Proof.
  unfold checkStatus, status_table. cbn [map fst In].
  split_on_status status; try (right; reflexivity); left; subst; tauto.
Qed.

End StatusTable.

(** C6, counterexample: 255 is not in the table, and [checkStatus 255] is
    [None], not a text saying the status is unrecognized. *)
Lemma checkStatus_255_is_None :
  ~ In 255 (map fst status_table)
  /\ checkStatus 255 = PyNone
  /\ ~ (exists text, checkStatus 255 = PyStr text).
Proof.
  split; [|split].
  - cbn. intuition discriminate.
  - reflexivity.
  - intros [text H]. discriminate H.
Qed.

(** C6, amended: [checkStatus] is total; for status 0 it returns the
    success text, for every code of the table that code's text, and for
    every other code [None]. *)
Theorem checkStatus_total (status : Z) :
  checkStatus 0 = PyStr "Command successful; no error; all OK"
  /\ checkStatus status
     = match describe status_table status with
       | Some text => PyStr text
       | None => PyNone
       end
  /\ (In status (map fst status_table) \/ checkStatus status = PyNone).
Proof.
  split; [reflexivity|].
  split; [apply checkStatus_describe | apply checkStatus_unlisted].
Qed.

(* ================================================================== *)
(** * The value decoder *)
(* ================================================================== *)

Section ValueDecoder.

Lemma int_from_bytes_le_unsigned (raw : bytes) :
  int_from_bytes raw = le_unsigned raw.
Proof.
  induction raw as [|x raw IH]; [reflexivity|].
  unfold le_unsigned in *. cbn [int_from_bytes fold_right]. now rewrite IH.
Qed.

Lemma int_from_bytes_bound (raw : bytes) :
  wf_bytes raw -> 0 <= int_from_bytes raw < 2 ^ (8 * len raw).
Proof.
  intros H. induction H as [|x raw Hx _ IH].
  - cbn. lia.
  - cbn [int_from_bytes]. rewrite len_cons.
    replace (8 * (1 + len raw)) with (8 + 8 * len raw) by lia.
    pose proof (len_nonneg raw).
    rewrite Z.pow_add_r by lia. change (2 ^ 8) with 256.
    unfold is_byte in Hx. nia.
Qed.

Lemma as_signed_le_signed (raw : bytes) (n : Z) :
  wf_bytes raw -> len raw = n -> 0 < n ->
  as_signed (8 * n) (int_from_bytes raw) = le_signed raw.
Proof.
  intros Hwf Hn Hpos. pose proof (int_from_bytes_bound raw Hwf) as Hb.
  unfold as_signed, le_signed. rewrite <- (int_from_bytes_le_unsigned raw).
  rewrite Hn in Hb |- *.
  set (u := int_from_bytes raw) in *. set (B := 2 ^ (8 * n - 1)).
  assert (2 ^ (8 * n) = 2 * B) as E.
  { unfold B. replace (8 * n) with (Z.succ (8 * n - 1)) at 1 by lia.
    apply Z.pow_succ_r. lia. }
  rewrite E in *. destruct (u <? B) eqn:C.
  - rewrite Z.mod_small by lia. lia.
  - replace (u + B) with ((u - B) + 1 * (2 * B)) by lia.
    rewrite Z.mod_add, Z.mod_small by lia. lia.
Qed.

(** The tag byte, when the payload has one, is what [parse_data_request]
    dispatches on. *)
Lemma type_of_value_tag (payload : bytes) (tag : Z) :
  type_tag payload = Some tag ->
  int_from_bytes (slice payload (Some 3) (Some 4)) = tag.
Proof.
  unfold type_tag. intros H.
  destruct payload as [|a [|b [|c [|t rest]]]]; try discriminate.
  injection H as ->.
  change (a :: b :: c :: tag :: rest) with ([a; b; c] ++ [tag] ++ rest).
  rewrite slice_mid by reflexivity. apply int_from_bytes_1.
Qed.

Lemma value_bytes_present (payload : bytes) (w : Z) :
  0 < w -> 4 + w <= len payload ->
  slice payload (Some 4) (Some (4 + w)) = raw_after_tag payload w
  /\ List.length (raw_after_tag payload w) = Z.to_nat w.
Proof.
  intros Hw Hl. split.
  - rewrite slice_inside by lia. unfold raw_after_tag. do 2 f_equal. lia.
  - unfold raw_after_tag. rewrite length_firstn, length_skipn.
    unfold len in Hl. lia.
Qed.

Lemma value_bytes_missing (payload : bytes) (w : Z) :
  0 < w -> len payload < 4 + w ->
  List.length (slice payload (Some 4) (Some (4 + w))) <> Z.to_nat w.
Proof.
  intros Hw Hl. unfold slice, clamp.
  destruct (4 <? 0) eqn:E1; [lia|]. destruct (4 + w <? 0) eqn:E2; [lia|].
  rewrite length_firstn, length_skipn. unfold len in *. lia.
Qed.

Lemma struct_unpack_short (f : fmt) (buf : bytes) :
  List.length buf <> calcsize f -> struct_unpack f buf = Raise StructError.
Proof.
  intros H. unfold struct_unpack.
  destruct (Nat.eqb_spec (List.length buf) (calcsize f)); [contradiction|].
  reflexivity.
Qed.

Lemma tag_cases (tag : Z) :
  tag = 16 \/ tag = 17 \/ tag = 18 \/ tag = 19 \/ tag = 20 \/ tag = 21
  \/ tag = 22 \/ tag = 23
  \/ (tag_width tag = None
      /\ (tag =? 16) = false /\ (tag =? 17) = false /\ (tag =? 18) = false
      /\ (tag =? 19) = false /\ (tag =? 20) = false /\ (tag =? 21) = false
      /\ (tag =? 22) = false /\ (tag =? 23) = false).
Proof.
  destruct (Z.eq_dec tag 16); [tauto|]. destruct (Z.eq_dec tag 17); [tauto|].
  destruct (Z.eq_dec tag 18); [tauto|]. destruct (Z.eq_dec tag 19); [tauto|].
  destruct (Z.eq_dec tag 20); [tauto|]. destruct (Z.eq_dec tag 21); [tauto|].
  destruct (Z.eq_dec tag 22); [tauto|]. destruct (Z.eq_dec tag 23); [tauto|].
  do 8 right. split.
  - destruct tag as [|q|q]; try reflexivity.
    do 5 (try destruct q as [q|q|]); try reflexivity; lia.
  - repeat split; apply Z.eqb_neq; assumption.
Qed.

End ValueDecoder.

Section ValueDecoderCases.

Variable payload : bytes.
Hypothesis Hwf : wf_bytes payload.

Lemma raw_after_tag_wf (w : Z) : wf_bytes (raw_after_tag payload w).
Proof. unfold raw_after_tag. apply wf_firstn, wf_skipn, Hwf. Qed.

Lemma raw_after_tag_len (w : Z) :
  0 < w -> 4 + w <= len payload -> len (raw_after_tag payload w) = w.
Proof.
  intros Hw Hl. destruct (value_bytes_present payload w Hw Hl) as [_ H].
  unfold len. rewrite H. lia.
Qed.

(** A recognised tag with its value bytes present: the [struct.unpack] of
    the branch succeeds on exactly those bytes. *)
Lemma unpack_present (f : fmt) (w : Z) :
  0 < w -> Z.to_nat w = calcsize f -> 4 + w <= len payload ->
  struct_unpack f (slice payload (Some 4) (Some (4 + w)))
  = Ok match f with
       | fmt_B | fmt_H | fmt_L => PyInt (le_unsigned (raw_after_tag payload w))
       | fmt_b | fmt_h | fmt_l => PyInt (le_signed (raw_after_tag payload w))
       | fmt_f => PyFloat (to_double
                   (ieee_decode 23 8 (le_unsigned (raw_after_tag payload w))))
       | fmt_d => PyFloat (to_double
                   (ieee_decode 52 11 (le_unsigned (raw_after_tag payload w))))
       end.
Proof.
  intros Hw Hsize Hl.
  destruct (value_bytes_present payload w Hw Hl) as [-> Hlen].
  pose proof (raw_after_tag_wf w) as Hr.
  pose proof (raw_after_tag_len w Hw Hl) as Hrl.
  unfold struct_unpack. rewrite Hlen, Hsize, Nat.eqb_refl.
  rewrite <- (int_from_bytes_le_unsigned (raw_after_tag payload w)).
  destruct f; try reflexivity; do 2 f_equal;
    cbn [calcsize] in Hsize.
  - rewrite <- (as_signed_le_signed _ 1 Hr); [reflexivity | lia | lia].
  - rewrite <- (as_signed_le_signed _ 2 Hr); [reflexivity | lia | lia].
  - rewrite <- (as_signed_le_signed _ 4 Hr); [reflexivity | lia | lia].
Qed.

Lemma unpack_missing (f : fmt) (w : Z) :
  0 < w -> Z.to_nat w = calcsize f -> len payload < 4 + w ->
  struct_unpack f (slice payload (Some 4) (Some (4 + w))) = Raise StructError.
Proof.
  intros Hw Hsize Hl. apply struct_unpack_short. rewrite <- Hsize.
  now apply value_bytes_missing.
Qed.

End ValueDecoderCases.

(** C4, counterexample: a payload whose tag byte is 16 but which ends
    right after the tag; the decoder does not return a value, it fails in
    [struct.unpack]. *)
Lemma tag_without_value_raises :
  type_tag [0; 100; 0; 16] = Some 16
  /\ parse_data_request [0; 100; 0; 16] = Raise StructError
  /\ ~ (exists v, parse_data_request [0; 100; 0; 16] = Ok v).
Proof.
  repeat split. intros [v H]. discriminate H.
Qed.

(** C4, amended: for a payload whose tag byte (offset 3) is one of 16..23
    and which holds at least the tag's width of bytes after the tag, the
    decoder returns those little-endian bytes read as unsigned-8, signed-8,
    unsigned-16, signed-16, unsigned-32, signed-32, float-32 or float-64;
    when fewer bytes follow the tag it raises [struct.error]; for any other
    tag it returns 0. *)
Theorem parse_data_request_by_tag (payload : bytes) (tag : Z) :
  wf_bytes payload -> type_tag payload = Some tag ->
  match tag_width tag with
  | Some w =>
      if 4 + w <=? len payload
      then parse_data_request payload
           = Ok (tag_value tag (raw_after_tag payload w))
      else parse_data_request payload = Raise StructError
  | None => parse_data_request payload = Ok (PyInt 0)
  end.
Proof.
  intros Hwf Htag. pose proof (type_of_value_tag payload tag Htag) as Ht.
  unfold parse_data_request. rewrite Ht. clear Ht Htag.
  destruct (tag_cases tag) as
    [->|[->|[->|[->|[->|[->|[->|[->|(W & E0 & E1 & E2 & E3 & E4 & E5 & E6 & E7)]]]]]]]].
  1-8: cbn [tag_width tag_value Z.eqb Pos.eqb];
       match goal with
       | |- if 4 + ?w <=? _ then _ else _ =>
           destruct (Z.leb_spec (4 + w) (len payload));
             [ change (Some 5) with (Some (4 + 1));
               change (Some 6) with (Some (4 + 2));
               change (Some 8) with (Some (4 + 4));
               change (Some 12) with (Some (4 + 8));
               rewrite (unpack_present payload Hwf _ w) by (reflexivity || lia);
               reflexivity
             | change (Some 5) with (Some (4 + 1));
               change (Some 6) with (Some (4 + 2));
               change (Some 8) with (Some (4 + 4));
               change (Some 12) with (Some (4 + 8));
               apply unpack_missing; (reflexivity || lia) ]
       end.
  rewrite W, E0, E1, E2, E3, E4, E5, E6, E7. reflexivity.
Qed.

Lemma parse_data_request_by_tag_witness :
  parse_data_request [0; 100; 0; 21; 255; 255; 255; 255] = Ok (PyInt (-1)).
Proof.
  apply (parse_data_request_by_tag [0; 100; 0; 21; 255; 255; 255; 255] 21).
  - repeat constructor; unfold is_byte; lia.
  - reflexivity.
Defined.

(** The three decodings the specification lists, and a double. *)
Example decode_float_one :
  parse_data_request [0; 100; 0; 22; 0x00; 0x00; 0x80; 0x3F]
  = Ok (PyFloat (S754_finite false 4503599627370496 (-52))).
Proof. reflexivity. Qed.

Example decode_unsigned_char_255 :
  parse_data_request [0; 100; 0; 16; 0xFF] = Ok (PyInt 255).
Proof. reflexivity. Qed.

Example decode_signed_long_minus_one :
  parse_data_request [0; 100; 0; 21; 0xFF; 0xFF; 0xFF; 0xFF] = Ok (PyInt (-1)).
Proof. reflexivity. Qed.

Example decode_double_one :
  parse_data_request [0; 100; 0; 23; 0; 0; 0; 0; 0; 0; 0xF0; 0x3F]
  = Ok (PyFloat (S754_finite false 4503599627370496 (-52))).
Proof. reflexivity. Qed.

(* ================================================================== *)
(** * The multi-channel decoder *)
(* ================================================================== *)

Section MultiChannel.

Lemma slice_past_end (l : bytes) (a b : Z) :
  0 <= a -> len l <= a -> slice l (Some a) (Some b) = [].
Proof.
  intros Ha Hl. destruct (slice l (Some a) (Some b)) eqn:E; [reflexivity|].
  assert (a < len l); [|lia].
  apply (slice_nonempty l a b Ha). rewrite E. discriminate.
Qed.





End MultiChannel.



(** The well-formed example of the specification, and a payload cut inside
    the value of its only entry. *)
Example decode_two_entries :
  parse_multi_channel_request
    [0; 2; 5; 0; 100; 0; 16; 5; 5; 0; 101; 0; 16; 7]
  = Ok [PyInt 5; PyInt 7].
Proof. reflexivity. Qed.

Example decode_cut_value :
  parse_multi_channel_request [0; 1; 5; 0; 100; 0; 16] = Raise StructError.
Proof. reflexivity. Qed.

(* ================================================================== *)
(** * More on the checksum *)
(* ================================================================== *)

Section ChecksumAlgebra.

(** When the input bit equals the low bit of the running value, the step
    is a plain shift. *)
Lemma bit_step_same (c : Z) : bit_step c (Z.testbit c 0) = Z.shiftr c 1.
Proof.
  unfold bit_step. rewrite xorb_nilpotent. apply Z.lxor_0_r.
Qed.

Lemma bit_run_self (bits : list bool) :
  forall c,
    (forall k, (k < List.length bits)%nat ->
               nth k bits false = Z.testbit c (Z.of_nat k)) ->
    fold_left bit_step bits c = Z.shiftr c (len bits).
Proof.
  induction bits as [|x bits IH]; intros c H.
  - cbn [fold_left]. change (len (@nil bool)) with 0.
    now rewrite Z.shiftr_0_r.
  - cbn [fold_left]. pose proof (H 0%nat ltac:(simpl; lia)) as H0.
    cbn [nth] in H0. change (Z.of_nat 0) with 0 in H0.
    rewrite H0, bit_step_same, IH.
    + unfold len. rewrite Z.shiftr_shiftr by lia. f_equal.
      simpl List.length. lia.
    + intros k Hk. rewrite Z.shiftr_spec by lia.
      pose proof (H (S k) ltac:(simpl; lia)) as HS. cbn [nth] in HS.
      rewrite HS. f_equal. lia.
Qed.

Lemma byte_bits_nth (b : Z) (k : nat) :
  (k < 8)%nat -> nth k (byte_bits b) false = Z.testbit b (Z.of_nat k).
Proof.
  intros Hk. unfold byte_bits. cbn [seq map].
  do 8 (destruct k as [|k]; [reflexivity|]). lia.
Qed.

Lemma byte_bits_mod (b : Z) : byte_bits (b mod 256) = byte_bits b.
Proof.
  unfold byte_bits. apply map_ext_in. intros k Hk. apply in_seq in Hk.
  change 256 with (2 ^ 8). apply Z.mod_pow2_bits_low. lia.
Qed.

(** Feeding the running value its own low byte shifts it out. *)
Lemma calc_next_crc_byte_own_low (c : Z) :
  calc_next_crc_byte c (c mod 256) = c / 256.
Proof.
  rewrite calc_next_crc_byte_eq. unfold checksum_byte.
  rewrite byte_bits_mod, bit_run_self.
  - change (len (byte_bits c)) with 8. now rewrite Z.shiftr_div_pow2 by lia.
  - intros k Hk. apply byte_bits_nth. exact Hk.
Qed.

(** The step is linear over XOR. *)
Lemma bit_step_lxor (c d : Z) (x y : bool) :
  bit_step (Z.lxor c d) (xorb x y) = Z.lxor (bit_step c x) (bit_step d y).
Proof.
  unfold bit_step. rewrite Z.shiftr_lxor, Z.lxor_spec.
  apply Z.bits_inj'. intros n Hn. rewrite !Z.lxor_spec.
  destruct (Z.testbit c 0), (Z.testbit d 0), x, y; cbn [xorb];
    rewrite ?Z.bits_0, ?xorb_false_r;
    destruct (Z.testbit (Z.shiftr c 1) n), (Z.testbit (Z.shiftr d 1) n),
      (Z.testbit 33800 n); reflexivity.
Qed.

Lemma bit_run_lxor (xs : list bool) :
  forall ys c d,
    List.length xs = List.length ys ->
    fold_left bit_step (map (fun p => xorb (fst p) (snd p)) (combine xs ys))
              (Z.lxor c d)
    = Z.lxor (fold_left bit_step xs c) (fold_left bit_step ys d).
Proof.
  induction xs as [|x xs IH]; intros [|y ys] c d Hl; try discriminate.
  - reflexivity.
  - cbn [combine map fold_left fst snd]. rewrite bit_step_lxor.
    apply IH. simpl in Hl. lia.
Qed.

Lemma byte_bits_lxor (b e : Z) :
  byte_bits (Z.lxor b e)
  = map (fun p => xorb (fst p) (snd p)) (combine (byte_bits b) (byte_bits e)).
Proof.
  unfold byte_bits. cbn [seq map combine fst snd].
  now rewrite !Z.lxor_spec.
Qed.

Lemma calc_next_crc_byte_lxor (c d b e : Z) :
  calc_next_crc_byte (Z.lxor c d) (Z.lxor b e)
  = Z.lxor (calc_next_crc_byte c b) (calc_next_crc_byte d e).
Proof.
  rewrite !calc_next_crc_byte_eq. unfold checksum_byte.
  rewrite byte_bits_lxor. now apply bit_run_lxor.
Qed.

(** XORing the byte into the running value first gives the same result. *)
Lemma calc_next_crc_byte_pre_xor (c b : Z) :
  is_byte b ->
  calc_next_crc_byte c b = calc_next_crc_byte (Z.lxor c b) 0.
Proof.
  intros Hb.
  replace (calc_next_crc_byte (Z.lxor c b) 0)
    with (calc_next_crc_byte (Z.lxor c b) (Z.lxor b b))
    by now rewrite Z.lxor_nilpotent.
  rewrite calc_next_crc_byte_lxor.
  replace (calc_next_crc_byte b b) with 0; [now rewrite Z.lxor_0_r|].
  unfold is_byte in Hb.
  pose proof (calc_next_crc_byte_own_low b) as E.
  rewrite Z.mod_small, Z.div_small in E by lia. now symmetry.
Qed.

Lemma lxor_byte_u16 (c b : Z) : is_u16 c -> is_byte b -> is_u16 (Z.lxor c b).
Proof.
  intros Hc Hb. apply lxor_u16; [exact Hc|]. unfold is_byte, is_u16 in *. lia.
Qed.

(** For a fixed running value, different bytes give different results. *)
Lemma calc_next_crc_byte_byte_inj (c b b' : Z) :
  is_u16 c -> is_byte b -> is_byte b' ->
  calc_next_crc_byte c b = calc_next_crc_byte c b' -> b = b'.
Proof.
  intros Hc Hb Hb' E.
  rewrite (calc_next_crc_byte_pre_xor c b Hb),
          (calc_next_crc_byte_pre_xor c b' Hb') in E.
  apply calc_next_crc_byte_inj in E; auto using lxor_byte_u16.
  apply (f_equal (Z.lxor c)) in E.
  now rewrite <- !Z.lxor_assoc, Z.lxor_nilpotent, !Z.lxor_0_l in E.
Qed.

End ChecksumAlgebra.

(** X1: the checksum of any data is a 16-bit number, so its conversion to
    two bytes in [send_request] never overflows. *)
Theorem calc_crc16_fits_two_bytes (data : bytes) :
  0 <= calc_crc16 data < 65536
  /\ to_bytes 2 (calc_crc16 data)
     = Ok [calc_crc16 data mod 256; calc_crc16 data / 256].
Proof.
  pose proof (calc_crc16_u16 data) as H. split; [exact H|].
  now apply to_bytes_2.
Qed.

(** X2: the checksum of data followed by its own two checksum bytes (low
    byte first, as the frame carries them) is 0. *)
Theorem calc_crc16_residue (data : bytes) :
  calc_crc16 (data ++ [calc_crc16 data mod 256; calc_crc16 data / 256]) = 0.
Proof.
  pose proof (calc_crc16_u16 data) as [H0 H1].
  unfold calc_crc16 at 1. rewrite fold_left_app. fold (calc_crc16 data).
  cbn [fold_left]. rewrite calc_next_crc_byte_own_low.
  set (h := calc_crc16 data / 256).
  assert (0 <= h < 256) as Hh.
  { unfold h. split; [apply Z.div_pos; lia | apply Z.div_lt_upper_bound; lia]. }
  pose proof (calc_next_crc_byte_own_low h) as E.
  rewrite Z.mod_small, Z.div_small in E by lia. exact E.
Qed.

Lemma calc_crc16_byte_change (pre suf : bytes) (b b' : Z) :
  is_byte b -> is_byte b' -> b <> b' ->
  calc_crc16 (pre ++ b :: suf) <> calc_crc16 (pre ++ b' :: suf).
Proof.
  intros Hb Hb' Hne E. unfold calc_crc16 in E. rewrite !fold_left_app in E.
  cbn [fold_left] in E.
  assert (is_u16 (fold_left calc_next_crc_byte pre 65535)) as H1.
  { apply crc_run_u16. unfold is_u16. lia. }
  apply crc_run_inj in E; auto using calc_next_crc_byte_u16.
  apply calc_next_crc_byte_byte_inj in E; auto.
Qed.

(** X3: replacing one byte of the data by a different byte changes the
    checksum. *)
Theorem calc_crc16_detects_byte_change (pre suf : bytes) (b b' : Z) :
  is_byte b -> is_byte b' -> b <> b' ->
  calc_crc16 (pre ++ b :: suf) <> calc_crc16 (pre ++ b' :: suf).
Proof. apply calc_crc16_byte_change. Qed.

Lemma calc_crc16_detects_byte_change_witness :
  calc_crc16 ([1; 16] ++ 1 :: [112; 1]) <> calc_crc16 ([1; 16] ++ 2 :: [112; 1]).
Proof.
  apply (calc_crc16_detects_byte_change [1; 16] [112; 1] 1 2);
    unfold is_byte; lia.
Defined.

(* ================================================================== *)
(** * More on the frame codec *)
(* ================================================================== *)

Section FrameErrors.

Lemma to_bytes_cases (n : nat) (z : Z) :
  (exists bs, to_bytes n z = Ok bs /\ 0 <= z < 256 ^ Z.of_nat n)
  \/ (to_bytes n z = Raise OverflowError /\ ~ (0 <= z < 256 ^ Z.of_nat n)).
Proof.
  unfold to_bytes.
  destruct (Z.leb_spec 0 z); destruct (Z.ltb_spec z (256 ^ Z.of_nat n));
    cbn [andb]; first [left; eexists; split; [reflexivity | lia]
                      | right; split; [reflexivity | lia]].
Qed.

(** Whatever is received, a request that does not fit its fields is not
    even assembled. *)
Lemma send_request_overflow (reply : bytes) (r c v : Z) (p : bytes) :
  ~ is_byte r \/ ~ is_byte c \/ ~ is_byte v \/ 253 < len p ->
  send_request reply r c v p = Raise OverflowError.
Proof.
  intros H. unfold send_request, send_request_tx. rewrite LEN_count.
  change (256 ^ Z.of_nat 1) with 256 in *.
  destruct (to_bytes_cases 1 r) as [(TO & -> & Hr) | [-> _]]; [|reflexivity].
  rewrite (to_bytes_1 1) by (unfold is_byte; lia). cbn [bind].
  destruct (to_bytes_cases 1 (2 + len p)) as [(LEN & -> & Hl) | [-> _]];
    [|reflexivity].
  cbn [bind].
  destruct (to_bytes_cases 1 c) as [(CMD & -> & Hc) | [-> _]]; [|reflexivity].
  cbn [bind].
  destruct (to_bytes_cases 1 v) as [(VER & -> & Hv) | [-> _]]; [|reflexivity].
  exfalso. change (256 ^ Z.of_nat 1) with 256 in *. unfold is_byte in H. lia.
Qed.

End FrameErrors.

(** X4: [send_request] accepts every reply of the wire layout whose
    checksum bytes are right and returns its payload, whatever the two
    address bytes, the two class bytes and the last byte are: neither the
    addresses nor the end marker are checked. *)
Theorem wire_frame_accepted (a2 a3 a4 a5 c v eot : Z) (p : bytes) :
  send_request_rx (wire_frame a2 a3 a4 a5 c v eot p) [c] [v] = Ok (PyBytes p).
Proof. unfold wire_frame, wire_body. apply send_request_rx_accepts. Qed.

(** X5: a non-empty reply too short to reach the position where its length
    byte puts the ETX (in particular every reply of 1 to 8 bytes) raises the
    length error. *)
Theorem short_reply_rejected (reply cmd ver : bytes) :
  wf_bytes reply -> reply <> [] ->
  len reply < 9 + declared_length reply ->
  send_request_rx reply cmd ver
  = Raise (UMBError (InvalidLength (declared_length reply))).
Proof.
  intros Hwf Hne Hshort.
  pose proof (int_from_one_byte reply 6 Hwf ltac:(lia)) as HL.
  change (int_from_bytes (slice reply (Some 6) (Some (6 + 1))))
    with (declared_length reply) in HL.
  unfold send_request_rx. fold (declared_length reply).
  destruct (len reply =? 0) eqn:E0.
  { destruct reply; [contradiction|]. rewrite len_cons in E0.
    pose proof (len_nonneg reply). lia. }
  rewrite slice_past_end by lia. reflexivity.
Qed.

Lemma short_reply_rejected_witness :
  send_request_rx [1; 16; 1; 240; 1; 112; 7; 2] [35] [16]
  = Raise (UMBError (InvalidLength 7)).
Proof.
  apply (short_reply_rejected [1; 16; 1; 240; 1; 112; 7; 2] [35] [16]).
  - repeat constructor; unfold is_byte; lia.
  - discriminate.
  - reflexivity.
Defined.

(** X6: a reply that is valid for command [c] and version [v] is rejected
    with the wrong-command error when another command is expected, and with
    the wrong-version error when the command is the expected one and the
    version is not. *)
Theorem other_command_rejected (f p : bytes) (c v c' v' : Z) :
  valid_frame [c] [v] f p -> c' <> c -> v' <> v ->
  send_request_rx f [c'] [v] = Raise (UMBError WrongCommand)
  /\ send_request_rx f [c] [v'] = Raise (UMBError WrongCommandVersion).
Proof.
  intros [Hok _] Hc Hv. unfold send_request_rx in *.
  destruct (len f =? 0); [discriminate|].
  destruct (negb (bytes_eqb _ ETX)); [discriminate|].
  destruct (to_bytes 2 _) as [cs|e]; cbn [bind] in *; [|discriminate].
  destruct (negb (bytes_eqb cs _)); [discriminate|].
  destruct (negb (bytes_eqb _ SOH)); [discriminate|].
  destruct (negb (bytes_eqb _ VERSION)); [discriminate|].
  destruct (negb (bytes_eqb _ STX)); [discriminate|].
  destruct (bytes_eqb _ [c]) eqn:E8; cbn [negb] in Hok; [|discriminate].
  destruct (bytes_eqb _ [v]) eqn:E9; cbn [negb] in Hok; [|discriminate].
  apply bytes_eqb_eq in E8, E9. rewrite E8, E9. cbn [bytes_eqb].
  destruct (Z.eqb_spec c c'); [congruence|].
  destruct (Z.eqb_spec v v'); [congruence|]. split; reflexivity.
Qed.

Lemma other_command_rejected_witness :
  send_request_rx status_ok_reply [0x28] [0x10] = Raise (UMBError WrongCommand)
  /\ send_request_rx status_ok_reply [0x26] [0x11]
     = Raise (UMBError WrongCommandVersion).
Proof.
  apply (other_command_rejected status_ok_reply [0; 0] 0x26 0x10 0x28 0x11).
  - split; reflexivity.
  - discriminate.
  - discriminate.
Defined.

(** X7: a request that does not fit its one-byte fields (receiver address,
    command or command version outside 0..255, or a payload of more than
    253 bytes) raises [OverflowError], whatever would have been received. *)
Theorem oversized_request_overflows (reply : bytes) (r c v : Z) (p : bytes) :
  ~ is_byte r \/ ~ is_byte c \/ ~ is_byte v \/ 253 < len p ->
  send_request reply r c v p = Raise OverflowError.
Proof. apply send_request_overflow. Qed.

Lemma oversized_request_overflows_witness :
  send_request status_ok_reply 256 0x26 0x10 [] = Raise OverflowError.
Proof.
  apply (oversized_request_overflows status_ok_reply 256 0x26 0x10 []).
  left. unfold is_byte. lia.
Defined.

Section FrameTamper.

Lemma replace_byte_middle (pre rest : bytes) (b b' : Z) :
  replace_byte (List.length pre) b' (pre ++ b :: rest) = pre ++ b' :: rest.
Proof.
  unfold replace_byte.
  rewrite skipn_app, skipn_all, Nat.sub_diag. cbn [skipn app].
  now rewrite firstn_app, firstn_all, Nat.sub_diag, app_nil_r.
Qed.

(** A valid frame in which one byte in front of the ETX, other than the
    length byte, is exchanged for a byte that changes the checksum of the
    checked part. *)
Lemma corrupted_frame_rejected (pre rest cmd ver p : bytes) (b b' : Z) :
  valid_frame cmd ver (pre ++ b :: rest) p ->
  len pre < 8 + declared_length (pre ++ b :: rest) ->
  len pre <> 6 ->
  (forall suf, calc_crc16 (pre ++ b :: suf) <> calc_crc16 (pre ++ b' :: suf)) ->
  exists calculated received,
    send_request_rx (pre ++ b' :: rest) cmd ver
    = Raise (UMBError (ChecksumFailed calculated received))
    /\ calculated <> received.
Proof.
  intros V Hi H6 Hcrc.
  destruct (send_request_rx_ok_inv _ cmd ver p V) as (H8 & Hetx & Hcs).
  destruct V as [_ Hlen].
  set (L := declared_length (pre ++ b :: rest)) in *.
  pose proof (len_nonneg pre) as Hp0.
  assert (len rest = L + 12 - len pre - 1) as Hr.
  { rewrite len_app, len_cons in Hlen. lia. }
  assert (len (pre ++ b' :: rest) = L + 12) as Hlen'.
  { rewrite len_app, len_cons. lia. }
  assert (declared_length (pre ++ b' :: rest) = L) as HL.
  { unfold L, declared_length. f_equal. symmetry.
    apply slice_same_outside.
    destruct (Z.lt_ge_cases (len pre) 6); [right | left]; lia. }
  unfold send_request_rx. fold (declared_length (pre ++ b' :: rest)).
  rewrite HL.
  destruct (len (pre ++ b' :: rest) =? 0) eqn:E0; [lia|].
  rewrite <- (slice_same_outside pre rest b b') by (right; lia).
  rewrite Hetx. change (bytes_eqb ETX ETX) with true. cbn [negb].
  destruct (len (pre ++ b' :: rest) >? L + 12) eqn:E1; [lia|].
  rewrite to_bytes_2 by apply calc_crc16_u16. cbn [bind].
  assert (slice (pre ++ b' :: rest) (Some (-3)) (Some (-1))
          = slice (pre ++ b :: rest) (Some (-3)) (Some (-1))) as ->.
  { transitivity (slice (pre ++ b' :: rest)
                    (Some (len (pre ++ b' :: rest) - 3))
                    (Some (len (pre ++ b' :: rest) - 1))).
    - apply (slice_from_end _ 3 1); lia.
    - rewrite Hlen', <- Hlen.
      rewrite <- (slice_same_outside pre rest b b') by (right; lia).
      symmetry. apply (slice_from_end _ 3 1); lia. }
  rewrite Hcs. rewrite !slice_drop_last3 by lia.
  set (rest1 := firstn (List.length rest - 3) rest).
  assert ([calc_crc16 (pre ++ b' :: rest1) mod 256;
           calc_crc16 (pre ++ b' :: rest1) / 256]
          <> [calc_crc16 (pre ++ b :: rest1) mod 256;
              calc_crc16 (pre ++ b :: rest1) / 256]) as Hneq.
  { intros E. injection E as Em Ed. apply (Hcrc rest1).
    symmetry. now apply le16_inj. }
  rewrite (bytes_eqb_neq _ _ Hneq). cbn [negb].
  eexists _, _. split; [reflexivity | exact Hneq].
Qed.

(** The decode step on a frame of the wire layout with any two bytes in
    the place of the checksum. *)
Lemma send_request_rx_layout (a2 a3 a4 a5 c v eot x y : Z) (p : bytes) :
  let body := wire_body a2 a3 a4 a5 c v p in
  let cs := [calc_crc16 body mod 256; calc_crc16 body / 256] in
  [x; y] <> cs ->
  send_request_rx (body ++ [x; y] ++ [eot]) [c] [v]
  = Raise (UMBError (ChecksumFailed cs [x; y])).
Proof.
  intros body cs Hne.
  set (hdr := [0x01; 0x10; a2; a3; a4; a5; 2 + len p; 0x02; c; v]).
  assert (body = hdr ++ p ++ [3]) as Hbody by reflexivity.
  set (F := body ++ [x; y] ++ [eot]).
  pose proof (len_nonneg p) as Hp0.
  assert (len hdr = 10) as Hh by reflexivity.
  assert (len body = 11 + len p) as Hb.
  { rewrite Hbody, !len_app, Hh. change (len [3]) with 1. lia. }
  assert (len F = 14 + len p) as HF.
  { unfold F. rewrite !len_app, Hb. change (len [x; y]) with 2.
    change (len [eot]) with 1. lia. }
  assert (F = hdr ++ (p ++ [3] ++ [x; y] ++ [eot])) as F1.
  { unfold F. rewrite Hbody. now rewrite <- !app_assoc. }
  unfold send_request_rx.
  destruct (len F =? 0) eqn:E0; [lia|].
  assert (slice F (Some 6) (Some 7) = [2 + len p]) as ->.
  { rewrite F1, slice_app_l by lia. reflexivity. }
  rewrite int_from_bytes_1.
  assert (slice F (Some (8 + (2 + len p))) (Some (9 + (2 + len p))) = [3]) as ->.
  { replace F with ((hdr ++ p) ++ [3] ++ [x; y] ++ [eot])
      by (rewrite F1; now rewrite <- app_assoc).
    apply slice_mid; rewrite len_app, Hh; [lia | change (len [3]) with 1; lia]. }
  change (bytes_eqb [3] ETX) with true. cbn [negb].
  destruct (len F >? 2 + len p + 12) eqn:E1; [lia|].
  assert (slice F None (Some (-3)) = body) as ->.
  { unfold F. apply (slice_drop_last body ([x; y] ++ [eot]) 3); [lia|reflexivity]. }
  rewrite to_bytes_2 by apply calc_crc16_u16. cbn [bind]. fold cs.
  assert (slice F (Some (-3)) (Some (-1)) = [x; y]) as ->.
  { transitivity (slice F (Some (len F - 3)) (Some (len F - 1))).
    - apply (slice_from_end F 3 1); lia.
    - unfold F at 1.
      apply slice_mid; rewrite HF, ?Hb; [lia | change (len [x; y]) with 2; lia]. }
  rewrite (bytes_eqb_neq cs [x; y]) by congruence. reflexivity.
Qed.

End FrameTamper.

(** X8: in a valid response frame, exchanging any one byte in front of the
    ETX, the length byte excepted (start marker, version, addresses, STX,
    command, command version or payload), for a different byte makes
    [send_request] raise the checksum error. *)
Theorem byte_change_detected (f cmd ver p : bytes) (i : nat) (b b' : Z) :
  valid_frame cmd ver f p ->
  nth_error f i = Some b -> is_byte b -> is_byte b' -> b <> b' ->
  Z.of_nat i < 8 + declared_length f -> i <> 6%nat ->
  exists calculated received,
    send_request_rx (replace_byte i b' f) cmd ver
    = Raise (UMBError (ChecksumFailed calculated received))
    /\ calculated <> received.
Proof.
  intros V Hnth Hb Hb' Hne Hi H6.
  destruct (nth_error_split f i Hnth) as (pre & rest & -> & <-).
  rewrite replace_byte_middle.
  apply (corrupted_frame_rejected pre rest cmd ver p b b' V).
  - unfold len. exact Hi.
  - unfold len. lia.
  - intros suf. now apply calc_crc16_byte_change.
Qed.

Lemma byte_change_detected_witness :
  exists calculated received,
    send_request_rx (replace_byte 8 0x28 status_ok_reply) [0x26] [0x10]
    = Raise (UMBError (ChecksumFailed calculated received))
    /\ calculated <> received.
Proof.
  apply (byte_change_detected status_ok_reply [0x26] [0x10] [0; 0] 8 0x26 0x28).
  - split; reflexivity.
  - reflexivity.
  - unfold is_byte. lia.
  - unfold is_byte. lia.
  - discriminate.
  - vm_compute. reflexivity.
  - discriminate.
Defined.

(** X9: a reply of the wire layout that carries any two bytes other than
    the checksum of its body in the checksum field raises the checksum
    error, which reports the calculated and the received bytes. *)
Theorem wrong_checksum_rejected (a2 a3 a4 a5 c v eot x y : Z) (p : bytes) :
  let body := wire_body a2 a3 a4 a5 c v p in
  let cs := [calc_crc16 body mod 256; calc_crc16 body / 256] in
  [x; y] <> cs ->
  send_request_rx (body ++ [x; y] ++ [eot]) [c] [v]
  = Raise (UMBError (ChecksumFailed cs [x; y])).
Proof. apply send_request_rx_layout. Qed.

Lemma wrong_checksum_rejected_witness :
  send_request_rx (wire_body 1 240 1 112 0x26 0x10 [0; 0] ++ [0; 0] ++ [4])
                  [0x26] [0x10]
  = Raise (UMBError (ChecksumFailed [13; 240] [0; 0])).
Proof.
  apply (wrong_checksum_rejected 1 240 1 112 0x26 0x10 4 0 0 [0; 0]).
  vm_compute. discriminate.
Defined.

Section FrameShape.

Lemma slice_len (l : bytes) (a b : Z) :
  0 <= a -> a <= b -> b <= len l -> len (slice l (Some a) (Some b)) = b - a.
Proof.
  intros Ha Hab Hb. rewrite slice_inside by lia. unfold len in *.
  rewrite length_firstn, length_skipn. lia.
Qed.

Lemma slice_split (l : bytes) (a b c : Z) :
  0 <= a -> a <= b -> b <= c -> c <= len l ->
  slice l (Some a) (Some c) = slice l (Some a) (Some b) ++ slice l (Some b) (Some c).
Proof.
  intros Ha Hab Hbc Hc. rewrite !slice_inside by lia.
  set (x := skipn (Z.to_nat a) l).
  assert (skipn (Z.to_nat b) l = skipn (Z.to_nat (b - a)) x) as ->.
  { unfold x. rewrite skipn_skipn. f_equal. lia. }
  assert (Nat.le (Z.to_nat (b - a)) (List.length x)) as Hx.
  { unfold x. rewrite length_skipn. unfold len in *. lia. }
  rewrite <- (firstn_skipn (Z.to_nat (b - a)) x) at 1.
  replace (Z.to_nat (c - a))
    with (List.length (firstn (Z.to_nat (b - a)) x) + Z.to_nat (c - b))%nat
    by (rewrite length_firstn; lia).
  apply firstn_app_2.
Qed.

Lemma slice_full (l : bytes) : slice l (Some 0) (Some (len l)) = l.
Proof.
  pose proof (len_nonneg l). rewrite slice_inside by lia.
  cbn [Z.to_nat skipn]. rewrite Z.sub_0_r. unfold len. rewrite Nat2Z.id.
  apply firstn_all.
Qed.

Lemma slice_to_end (l : bytes) (k : Z) :
  0 < k -> k <= len l ->
  slice l None (Some (- k)) = slice l (Some 0) (Some (len l - k)).
Proof.
  intros Hk Hl. unfold slice, clamp.
  destruct (- k <? 0) eqn:E1; [|lia]. destruct (0 <? 0) eqn:E2; [lia|].
  destruct (len l - k <? 0) eqn:E3; [lia|].
  rewrite Z.max_l, !Z.min_l by lia.
  now replace (len l + - k) with (len l - k) by lia.
Qed.

(** A slice of one byte, when it lies inside the object. *)
Lemma slice_one (l : bytes) (a : Z) :
  0 <= a -> a < len l -> exists x, slice l (Some a) (Some (a + 1)) = [x].
Proof.
  intros Ha Hl. pose proof (slice_len l a (a + 1) Ha ltac:(lia) ltac:(lia)) as H.
  destruct (slice l (Some a) (Some (a + 1))) as [|x [|y t]].
  - cbn in H. lia.
  - now exists x.
  - rewrite !len_cons in H. pose proof (len_nonneg t). lia.
Qed.

(** Everything the decode step has checked when it returns a payload. *)
Lemma valid_frame_fields (f p : bytes) (c v : Z) :
  valid_frame [c] [v] f p ->
  let L := declared_length f in
  let crc := calc_crc16 (slice f None (Some (-3))) in
  slice f (Some (8 + L)) (Some (9 + L)) = [0x03]
  /\ slice f (Some (-3)) (Some (-1)) = [crc mod 256; crc / 256]
  /\ slice f (Some 0) (Some 1) = [0x01]
  /\ slice f (Some 1) (Some 2) = [0x10]
  /\ slice f (Some 7) (Some 8) = [0x02]
  /\ slice f (Some 8) (Some 9) = [c]
  /\ slice f (Some 9) (Some 10) = [v]
  /\ slice f (Some 10) (Some (8 + L)) = p.
Proof.
  intros [Hok Hlen] L crc. unfold send_request_rx in Hok.
  fold (declared_length f) in Hok. fold L in Hok, Hlen.
  destruct (len f =? 0) eqn:E0; [discriminate|].
  destruct (bytes_eqb _ ETX) eqn:E1; cbn [negb] in Hok; [|discriminate].
  destruct (len f >? L + 12) eqn:E2; [lia|].
  fold crc in Hok. rewrite to_bytes_2 in Hok by apply calc_crc16_u16.
  cbn [bind] in Hok.
  destruct (bytes_eqb _ (slice f (Some (-3)) (Some (-1)))) eqn:E3;
    cbn [negb] in Hok; [|discriminate].
  destruct (bytes_eqb _ SOH) eqn:E4; cbn [negb] in Hok; [|discriminate].
  destruct (bytes_eqb _ VERSION) eqn:E5; cbn [negb] in Hok; [|discriminate].
  destruct (bytes_eqb _ STX) eqn:E6; cbn [negb] in Hok; [|discriminate].
  destruct (bytes_eqb _ [c]) eqn:E7; cbn [negb] in Hok; [|discriminate].
  destruct (bytes_eqb _ [v]) eqn:E8; cbn [negb] in Hok; [|discriminate].
  apply bytes_eqb_eq in E1, E3, E4, E5, E6, E7, E8.
  injection Hok as Hp. repeat split; auto.
Qed.

(** A frame the decode step accepts as one frame, with a length byte of
    at least 2, is a frame of the wire layout. *)
Lemma valid_frame_is_wire_frame (f p : bytes) (c v : Z) :
  valid_frame [c] [v] f p -> 2 <= declared_length f ->
  exists a2 a3 a4 a5 eot, f = wire_frame a2 a3 a4 a5 c v eot p.
Proof.
  intros V HL2.
  destruct (valid_frame_fields f p c v V)
    as (Hetx & Hcs & H0 & H1 & H7 & H8 & H9 & Hp).
  destruct V as [_ Hlen]. set (L := declared_length f) in *.
  assert (len p = L - 2) as Hlp.
  { rewrite <- Hp, slice_len by lia. lia. }
  destruct (slice_one f 2) as [a2 E2]; try lia.
  destruct (slice_one f 3) as [a3 E3]; try lia.
  destruct (slice_one f 4) as [a4 E4]; try lia.
  destruct (slice_one f 5) as [a5 E5]; try lia.
  destruct (slice_one f 6) as [x6 E6]; try lia.
  destruct (slice_one f (11 + L)) as [eot Ee]; try lia.
  cbn in E2, E3, E4, E5, E6.
  assert (x6 = L) as ->.
  { unfold L, declared_length. rewrite E6. now rewrite int_from_bytes_1. }
  assert (slice f (Some 0) (Some 10)
          = [0x01; 0x10; a2; a3; a4; a5; L; 0x02; c; v]) as Hhdr.
  { rewrite (slice_split f 0 1 10), (slice_split f 1 2 10),
      (slice_split f 2 3 10), (slice_split f 3 4 10), (slice_split f 4 5 10),
      (slice_split f 5 6 10), (slice_split f 6 7 10), (slice_split f 7 8 10),
      (slice_split f 8 9 10) by lia.
    now rewrite H0, H1, E2, E3, E4, E5, E6, H7, H8, H9. }
  assert (slice f (Some 0) (Some (9 + L)) = wire_body a2 a3 a4 a5 c v p)
    as Hbody.
  { rewrite (slice_split f 0 10 (9 + L)), (slice_split f 10 (8 + L) (9 + L))
      by lia.
    rewrite Hhdr, Hp, Hetx. unfold wire_body. rewrite Hlp.
    now replace (2 + (L - 2)) with L by lia. }
  assert (slice f (Some (9 + L)) (Some (11 + L))
          = [calc_crc16 (wire_body a2 a3 a4 a5 c v p) mod 256;
             calc_crc16 (wire_body a2 a3 a4 a5 c v p) / 256]) as Hcrc.
  { assert (slice f None (Some (-3)) = slice f (Some 0) (Some (9 + L))) as E.
    { transitivity (slice f (Some 0) (Some (len f - 3))).
      - apply (slice_to_end f 3); lia.
      - do 2 f_equal. lia. }
    rewrite E, Hbody in Hcs. rewrite <- Hcs.
    transitivity (slice f (Some (len f - 3)) (Some (len f - 1))).
    - f_equal; f_equal; lia.
    - symmetry. apply (slice_from_end f 3 1); lia. }
  exists a2, a3, a4, a5, eot. unfold wire_frame.
  rewrite <- (slice_full f) at 1. rewrite Hlen.
  rewrite (slice_split f 0 (9 + L) (L + 12)),
    (slice_split f (9 + L) (11 + L) (L + 12)) by lia.
  rewrite Hbody, Hcrc. do 2 f_equal.
  replace (L + 12) with (11 + L + 1) by lia. exact Ee.
Qed.

End FrameShape.

(** X10: the converse of X4.  A reply that [send_request] accepts as a
    single frame (no late data in front) and whose length byte is at least
    2 is exactly a frame of the wire layout: start marker, version, four
    free address and class bytes, length byte 2 + len(payload), STX,
    command, version, the payload, ETX, the checksum of all that, and one
    free last byte. *)
Theorem accepted_frame_is_wire_frame (f p : bytes) (c v : Z) :
  valid_frame [c] [v] f p -> 2 <= declared_length f ->
  exists a2 a3 a4 a5 eot, f = wire_frame a2 a3 a4 a5 c v eot p.
Proof. apply valid_frame_is_wire_frame. Qed.

Lemma accepted_frame_is_wire_frame_witness :
  exists a2 a3 a4 a5 eot,
    status_ok_reply = wire_frame a2 a3 a4 a5 0x26 0x10 eot [0; 0].
Proof.
  apply (accepted_frame_is_wire_frame status_ok_reply [0; 0] 0x26 0x10).
  - split; reflexivity.
  - vm_compute. discriminate.
Defined.

(* ================================================================== *)
(** * More on the value decoders *)
(* ================================================================== *)

Section ValueDecoderMore.

(** A slice that starts after a prefix, wherever it stops. *)
Lemma slice_shift (pre x : bytes) (a b : Z) :
  len pre <= a -> a <= b ->
  slice (pre ++ x) (Some a) (Some b)
  = slice x (Some (a - len pre)) (Some (b - len pre)).
Proof.
  intros Ha Hab. pose proof (len_nonneg pre). pose proof (len_nonneg x).
  destruct (Z.le_gt_cases b (len pre + len x)) as [Hb|Hb].
  - now apply slice_app_r.
  - unfold slice, clamp. rewrite len_app.
    destruct (a <? 0) eqn:E1; [lia|]. destruct (b <? 0) eqn:E2; [lia|].
    destruct (a - len pre <? 0) eqn:E3; [lia|].
    destruct (b - len pre <? 0) eqn:E4; [lia|].
    rewrite (Z.min_r b), (Z.min_r (b - len pre)) by lia.
    rewrite skipn_app.
    rewrite (skipn_all2 pre) by (unfold len in *; lia). cbn [app].
    f_equal; [|f_equal]; unfold len in *; lia.
Qed.

Lemma slice_after_prefix (pre x : bytes) (a n : Z) :
  a = len pre -> 0 <= n ->
  slice (pre ++ x) (Some a) (Some (a + n)) = firstn (Z.to_nat n) x.
Proof.
  intros -> Hn. rewrite slice_shift by lia.
  replace (len pre - len pre) with 0 by lia.
  replace (len pre + n - len pre) with n by lia.
  unfold slice, clamp. pose proof (len_nonneg x).
  change (0 <? 0) with false. cbv iota.
  destruct (n <? 0) eqn:E2; [lia|].
  rewrite (Z.min_l 0) by lia. cbn [Z.to_nat skipn]. rewrite Z.sub_0_r.
  destruct (Z.le_gt_cases n (len x)).
  - now rewrite Z.min_l by lia.
  - rewrite Z.min_r by lia.
    rewrite !firstn_all2 by (unfold len in *; lia). reflexivity.
Qed.

Lemma parse_data_request_skips_3 (a b c : Z) (rest : bytes) :
  parse_data_request (a :: b :: c :: rest)
  = let tag := int_from_bytes (slice rest (Some 0) (Some 1)) in
    if tag =? 16 then struct_unpack fmt_B (slice rest (Some 1) (Some 2))
    else if tag =? 17 then struct_unpack fmt_b (slice rest (Some 1) (Some 2))
    else if tag =? 18 then struct_unpack fmt_H (slice rest (Some 1) (Some 3))
    else if tag =? 19 then struct_unpack fmt_h (slice rest (Some 1) (Some 3))
    else if tag =? 20 then struct_unpack fmt_L (slice rest (Some 1) (Some 5))
    else if tag =? 21 then struct_unpack fmt_l (slice rest (Some 1) (Some 5))
    else if tag =? 22 then struct_unpack fmt_f (slice rest (Some 1) (Some 5))
    else if tag =? 23 then struct_unpack fmt_d (slice rest (Some 1) (Some 9))
    else Ok (PyInt 0).
Proof.
  unfold parse_data_request.
  change (a :: b :: c :: rest) with ([a; b; c] ++ rest).
  rewrite !(slice_shift [a; b; c] rest) by (cbn; lia). reflexivity.
Qed.

Lemma struct_unpack_int_range (f : fmt) (buf : bytes) (v : Z) :
  wf_bytes buf -> struct_unpack f buf = Ok (PyInt v) ->
  match f with
  | fmt_B => 0 <= v <= 255
  | fmt_b => -128 <= v <= 127
  | fmt_H => 0 <= v <= 65535
  | fmt_h => -32768 <= v <= 32767
  | fmt_L => 0 <= v <= 4294967295
  | fmt_l => -2147483648 <= v <= 2147483647
  | fmt_f | fmt_d => False
  end.
Proof.
  intros Hwf H. unfold struct_unpack in H.
  destruct (Nat.eqb_spec (List.length buf) (calcsize f)) as [Hl|]; [|discriminate].
  pose proof (int_from_bytes_bound buf Hwf) as Hb. unfold len in Hb.
  rewrite Hl in Hb. injection H as H.
  destruct f; cbn [calcsize] in Hb; try discriminate; injection H as <-;
    unfold as_signed;
    match goal with
    | |- context [if ?c then _ else _] => destruct c eqn:E
    | _ => idtac
    end;
    cbn in Hb; try (apply Z.ltb_lt in E); try (apply Z.ltb_ge in E);
    cbn in *; lia.
Qed.

Lemma int_range_other (tag v : Z) :
  tag_width tag = None -> int_range tag v = (v = 0).
Proof.
  destruct tag as [|q|q]; try reflexivity.
  do 5 (try destruct q as [q|q|]); try reflexivity; discriminate.
Qed.

Lemma parse_data_request_complete (entry extra : bytes) :
  entry_complete entry ->
  parse_data_request (entry ++ extra) = parse_data_request entry.
Proof.
  intros (tag & Htag & Hw).
  assert (4 <= len entry) as H4.
  { unfold type_tag in Htag.
    destruct entry as [|a [|b [|c [|t rest]]]]; try discriminate.
    rewrite !len_cons. pose proof (len_nonneg rest). lia. }
  pose proof (type_of_value_tag entry tag Htag) as Ht.
  unfold parse_data_request. rewrite (slice_app_l entry extra 3 4) by lia.
  rewrite Ht.
  destruct (tag_cases tag) as
    [->|[->|[->|[->|[->|[->|[->|[->|(W & E0 & E1 & E2 & E3 & E4 & E5 & E6 & E7)]]]]]]]].
  1-8: cbn [Z.eqb Pos.eqb];
       match goal with
       | |- struct_unpack _ (slice _ _ (Some ?m)) = _ =>
           specialize (Hw (m - 4) eq_refl);
           rewrite (slice_app_l entry extra 4 m) by lia; reflexivity
       end.
  now rewrite E0, E1, E2, E3, E4, E5, E6, E7.
Qed.

End ValueDecoderMore.

(** X11: the value decoder never looks at the first three bytes of the
    payload (the status byte and the channel number): payloads that agree
    from the type tag on decode alike. *)
Theorem parse_data_request_ignores_status_and_channel
    (a b c a' b' c' : Z) (rest : bytes) :
  parse_data_request (a :: b :: c :: rest)
  = parse_data_request (a' :: b' :: c' :: rest).
Proof. now rewrite !parse_data_request_skips_3. Qed.

(** X12: an integer the value decoder returns lies in the range of the
    type its tag names: 0..255, -128..127, 0..65535, -32768..32767,
    0..2^32-1, -2^31..2^31-1 for the tags 16..21, and it is 0 for a tag that
    is not recognised. *)
Theorem parse_data_request_int_range (payload : bytes) (tag v : Z) :
  wf_bytes payload -> type_tag payload = Some tag ->
  parse_data_request payload = Ok (PyInt v) ->
  int_range tag v.
Proof.
  intros Hwf Htag H. pose proof (type_of_value_tag payload tag Htag) as Ht.
  unfold parse_data_request in H. rewrite Ht in H.
  destruct (tag_cases tag) as
    [->|[->|[->|[->|[->|[->|[->|[->|(W & E0 & E1 & E2 & E3 & E4 & E5 & E6 & E7)]]]]]]]];
    cbn [Z.eqb Pos.eqb] in H.
  1-8: apply struct_unpack_int_range in H; [|now apply wf_slice];
       first [exact H | contradiction].
  rewrite E0, E1, E2, E3, E4, E5, E6, E7 in H. injection H as <-.
  now rewrite int_range_other.
Qed.

Lemma parse_data_request_int_range_witness :
  int_range 17 (-1).
Proof.
  apply (parse_data_request_int_range [0; 100; 0; 17; 255] 17 (-1)).
  - repeat constructor; unfold is_byte; lia.
  - reflexivity.
  - reflexivity.
Defined.

(** X13: a payload of at most three bytes has no type tag and decodes as
    0; an error reply that carries only a status and the channel number is
    returned as the value 0. *)
Theorem parse_data_request_without_tag (payload : bytes) :
  len payload <= 3 -> parse_data_request payload = Ok (PyInt 0).
Proof.
  intros H. unfold parse_data_request.
  now rewrite (slice_past_end payload 3 4) by lia.
Qed.

Lemma parse_data_request_without_tag_witness :
  parse_data_request [36; 100; 0] = Ok (PyInt 0).
Proof.
  apply (parse_data_request_without_tag [36; 100; 0]). cbn. lia.
Defined.

Section MultiChannelEntries.

Lemma collect_bind_app (rs : list (result value)) (r : result value)
    (acc : list value) :
  (v <- r ;; vs <- collect rs ;; Ok (acc ++ v :: vs))
  = (vs <- collect (r :: rs) ;; Ok (acc ++ vs)).
Proof.
  cbn [collect]. destruct r as [v|e]; cbn [bind]; [|reflexivity].
  destruct (collect rs); reflexivity.
Qed.

(** The loop, started at the first of the entries that remain, decodes
    each of them on its own. *)
Lemma multi_channel_loop_entries (entries : list bytes) :
  forall (pre : bytes) (valist : list value),
    Forall entry_complete entries ->
    multi_channel_loop (pre ++ flat_map entry_bytes entries)
                       (List.length entries) (len pre) valist
    = (vs <- collect (map parse_data_request entries) ;; Ok (valist ++ vs)).
Proof.
  induction entries as [|entry entries IH]; intros pre valist Hc.
  - cbn. now rewrite app_nil_r.
  - inversion Hc as [|? ? He Hrest]; subst.
    cbn [List.length multi_channel_loop flat_map map].
    change (entry_bytes entry) with (len entry :: entry).
    pose proof (len_nonneg entry) as Hn.
    set (tail := flat_map entry_bytes entries).
    assert (slice (pre ++ (len entry :: entry) ++ tail)
                  (Some (len pre)) (Some (len pre + 1)) = [len entry]) as ->.
    { change (len entry :: entry) with ([len entry] ++ entry).
      rewrite <- app_assoc. now apply slice_mid. }
    rewrite int_from_bytes_1.
    assert (slice (pre ++ (len entry :: entry) ++ tail)
                  (Some (len pre + 1)) (Some (len pre + len entry + 2))
            = entry ++ firstn 1 tail) as ->.
    { replace (pre ++ (len entry :: entry) ++ tail)
        with ((pre ++ [len entry]) ++ entry ++ tail)
        by (now rewrite <- !app_assoc).
      replace (len pre + len entry + 2) with (len pre + 1 + (len entry + 1))
        by lia.
      rewrite slice_after_prefix by (rewrite ?len_app; cbn; lia).
      replace (Z.to_nat (len entry + 1)) with (List.length entry + 1)%nat
        by (unfold len; lia).
      apply firstn_app_2. }
    rewrite (parse_data_request_complete entry _ He).
    rewrite <- collect_bind_app.
    destruct (parse_data_request entry) as [v|e]; cbn [bind]; [|reflexivity].
    replace (pre ++ (len entry :: entry) ++ tail)
      with ((pre ++ len entry :: entry) ++ tail)
      by (now rewrite <- app_assoc).
    replace (len pre + len entry + 1) with (len (pre ++ len entry :: entry))
      by (rewrite len_app, len_cons; lia).
    unfold tail. rewrite IH by assumption.
    destruct (collect (map parse_data_request entries)); cbn [bind];
      [|reflexivity].
    now rewrite <- app_assoc.
Qed.

Lemma parse_multi_channel_entries (status : Z) (entries : list bytes) :
  Forall entry_complete entries ->
  parse_multi_channel_request (multi_payload status entries)
  = collect (map parse_data_request entries).
Proof.
  intros Hc. unfold parse_multi_channel_request, multi_payload.
  change (status :: len entries :: flat_map entry_bytes entries)
    with ([status; len entries] ++ flat_map entry_bytes entries).
  assert (slice ([status; len entries] ++ flat_map entry_bytes entries)
                (Some 1) (Some 2) = [len entries]) as ->.
  { change ([status; len entries] ++ flat_map entry_bytes entries)
      with ([status] ++ [len entries] ++ flat_map entry_bytes entries).
    now apply slice_mid. }
  rewrite int_from_bytes_1.
  replace (Z.to_nat (len entries)) with (List.length entries)
    by (unfold len; lia).
  change 2 with (len [status; len entries]).
  rewrite multi_channel_loop_entries by assumption.
  destruct (collect (map parse_data_request entries)); reflexivity.
Qed.

End MultiChannelEntries.

(** X14: a multi-channel payload made of a status byte, a count and that
    many entries, each behind its sub-length byte and each holding its tag
    and the bytes of its value, decodes to the values of the entries decoded
    one by one, in their order. *)
Theorem parse_multi_channel_request_entries (status : Z) (entries : list bytes) :
  Forall entry_complete entries ->
  parse_multi_channel_request (multi_payload status entries)
  = collect (map parse_data_request entries).
Proof. apply parse_multi_channel_entries. Qed.

Lemma parse_multi_channel_request_entries_witness :
  parse_multi_channel_request
    (multi_payload 0 [[0; 100; 0; 16; 5]; [0; 200; 0; 17; 255]])
  = Ok [PyInt 5; PyInt (-1)].
Proof.
  apply (parse_multi_channel_request_entries 0
           [[0; 100; 0; 16; 5]; [0; 200; 0; 17; 255]]).
  repeat constructor.
  - exists 16. split; [reflexivity|]. intros w H. injection H as <-. cbn. lia.
  - exists 17. split; [reflexivity|]. intros w H. injection H as <-. cbn. lia.
Defined.

(* ================================================================== *)
(** * More on the queries *)
(* ================================================================== *)

Section QueriesMore.

(** Once the request is assembled, what [send_request] returns is decided
    by the reply, the command and the version alone. *)
Lemma send_request_rx_only (reply : bytes) (r c v : Z) (p : bytes) :
  is_byte r -> is_byte c -> is_byte v -> len p <= 253 ->
  send_request reply r c v p = send_request_rx reply [c] [v].
Proof.
  intros Hr Hc Hv Hp. unfold send_request.
  now rewrite send_request_tx_ok by assumption.
Qed.

Lemma channel_bytes_le (chlist : list Z) :
  forall acc,
    Forall is_channel chlist ->
    channel_bytes chlist acc = Ok (acc ++ channels_le chlist).
Proof.
  induction chlist as [|ch chlist IH]; intros acc H; cbn [channel_bytes].
  - cbn. now rewrite app_nil_r.
  - inversion H as [|? ? Hch Hrest]; subst.
    rewrite to_bytes_2 by exact Hch. cbn [bind].
    rewrite IH by assumption. unfold channels_le. cbn [flat_map].
    now rewrite <- app_assoc.
Qed.

Lemma channel_bytes_cases (chlist : list Z) :
  forall acc,
    (exists bs, channel_bytes chlist acc = Ok bs
                /\ len bs = len acc + 2 * len chlist)
    \/ channel_bytes chlist acc = Raise OverflowError.
Proof.
  induction chlist as [|ch chlist IH]; intros acc; cbn [channel_bytes].
  - left. exists acc. split; [reflexivity|]. rewrite len_nil. lia.
  - destruct (to_bytes_cases 2 ch) as [(c & Hc & Hr) | [-> _]];
      [|right; reflexivity].
    rewrite to_bytes_2 in Hc by exact Hr. injection Hc as <-.
    rewrite to_bytes_2 by exact Hr. cbn [bind].
    destruct (IH (acc ++ [ch mod 256; ch / 256])) as [(bs & -> & Hbs) | ->];
      [left | right; reflexivity].
    exists bs. split; [reflexivity|].
    rewrite Hbs, len_app, !len_cons, len_nil. lia.
Qed.

End QueriesMore.

(** X15: with arguments that fit the request, the result of the
    single-channel query and of the multi-channel query is decided by the
    received bytes alone: the channel numbers asked for and the receiver
    address are never compared with what the reply carries. *)
Theorem query_result_ignores_request (reply : bytes) (r r' ch ch' : Z)
    (chlist chlist' : list Z) :
  is_byte r -> is_byte r' -> is_channel ch -> is_channel ch' ->
  Forall is_channel chlist -> len chlist <= 126 ->
  Forall is_channel chlist' -> len chlist' <= 126 ->
  onlineDataQuery reply ch r = onlineDataQuery reply ch' r'
  /\ onlineMultiChannelQuery reply chlist r
     = onlineMultiChannelQuery reply chlist' r'.
Proof.
  intros Hr Hr' Hch Hch' Hl Hn Hl' Hn'.
  destruct byte_consts as (H23 & H2F & H26 & H28 & H2D & H10).
  pose proof (len_nonneg chlist). pose proof (len_nonneg chlist').
  split.
  - unfold onlineDataQuery.
    destruct (to_bytes_2_len ch Hch) as (c & -> & Hc).
    destruct (to_bytes_2_len ch' Hch') as (c' & -> & Hc'). cbn [bind].
    now rewrite !send_request_rx_only by first [assumption | lia].
  - unfold onlineMultiChannelQuery.
    rewrite !to_bytes_1 by (unfold is_byte; lia). cbn [bind].
    destruct (channel_bytes_ok chlist [len chlist] Hl) as (bs & -> & Hbs).
    destruct (channel_bytes_ok chlist' [len chlist'] Hl') as (bs' & -> & Hbs').
    cbn [bind]. change (len [len chlist]) with 1 in Hbs.
    change (len [len chlist']) with 1 in Hbs'.
    now rewrite !send_request_rx_only by first [assumption | lia].
Qed.

Lemma query_result_ignores_request_witness :
  onlineDataQuery zero_data_reply 100 1 = onlineDataQuery zero_data_reply 200 2
  /\ onlineMultiChannelQuery zero_data_reply [100] 1
     = onlineMultiChannelQuery zero_data_reply [200; 300] 2.
Proof.
  apply (query_result_ignores_request zero_data_reply 1 2 100 200
           [100] [200; 300]);
    first [ unfold is_byte; lia | unfold is_channel; lia
          | repeat constructor; unfold is_channel; lia
          | cbn; lia ].
Defined.

(** X16: given a reply of the wire layout for its command, each query
    returns what its parser makes of the payload: the single-channel query
    the decoded value, the multi-channel query the list of the values of
    complete entries, the status query the second payload byte, the
    readout-time query the little-endian number in payload bytes 1..3. *)
Theorem queries_on_wire_frames (a2 a3 a4 a5 eot r ch status : Z)
    (p : bytes) (chlist : list Z) (entries : list bytes) :
  is_byte r -> is_channel ch ->
  Forall is_channel chlist -> len chlist <= 126 ->
  Forall entry_complete entries ->
  onlineDataQuery (wire_frame a2 a3 a4 a5 0x23 0x10 eot p) ch r
  = parse_data_request p
  /\ onlineMultiChannelQuery
       (wire_frame a2 a3 a4 a5 0x2F 0x10 eot (multi_payload status entries))
       chlist r
     = (vs <- collect (map parse_data_request entries) ;; Ok (PyList vs))
  /\ statusQuery (wire_frame a2 a3 a4 a5 0x26 0x10 eot p) r
     = Ok (PyInt (int_from_bytes (slice p (Some 1) (Some 2))))
  /\ readoutTimeQuery (wire_frame a2 a3 a4 a5 0x28 0x10 eot p) r
     = Ok (PyInt (int_from_bytes (slice p (Some 1) (Some 4)))).
Proof.
  intros Hr Hch Hl Hn He.
  destruct byte_consts as (H23 & H2F & H26 & H28 & H2D & H10).
  pose proof (len_nonneg chlist).
  repeat split.
  - unfold onlineDataQuery.
    destruct (to_bytes_2_len ch Hch) as (c & -> & Hc). cbn [bind].
    rewrite send_request_rx_only by first [assumption | lia].
    unfold wire_frame, wire_body. rewrite send_request_rx_accepts.
    reflexivity.
  - unfold onlineMultiChannelQuery.
    rewrite to_bytes_1 by (unfold is_byte; lia). cbn [bind].
    destruct (channel_bytes_ok chlist [len chlist] Hl) as (bs & -> & Hbs).
    cbn [bind]. change (len [len chlist]) with 1 in Hbs.
    rewrite send_request_rx_only by first [assumption | lia].
    unfold wire_frame, wire_body. rewrite send_request_rx_accepts.
    cbn [bind ne_zero as_bytes].
    now rewrite parse_multi_channel_entries by assumption.
  - unfold statusQuery.
    rewrite send_request_rx_only by first [assumption | now cbv].
    unfold wire_frame, wire_body. rewrite send_request_rx_accepts.
    reflexivity.
  - unfold readoutTimeQuery.
    rewrite send_request_rx_only by first [assumption | now cbv].
    unfold wire_frame, wire_body. rewrite send_request_rx_accepts.
    reflexivity.
Qed.

Lemma queries_on_wire_frames_witness :
  onlineDataQuery (wire_frame 1 240 1 112 0x23 0x10 4 [0; 100; 0; 16; 7]) 100 1
  = parse_data_request [0; 100; 0; 16; 7]
  /\ onlineMultiChannelQuery
       (wire_frame 1 240 1 112 0x2F 0x10 4
          (multi_payload 0 [[0; 100; 0; 16; 5]])) [100] 1
     = (vs <- collect (map parse_data_request [[0; 100; 0; 16; 5]]) ;;
        Ok (PyList vs))
  /\ statusQuery (wire_frame 1 240 1 112 0x26 0x10 4 [0; 100; 0; 16; 7]) 1
     = Ok (PyInt (int_from_bytes
                    (slice [0; 100; 0; 16; 7] (Some 1) (Some 2))))
  /\ readoutTimeQuery (wire_frame 1 240 1 112 0x28 0x10 4 [0; 100; 0; 16; 7]) 1
     = Ok (PyInt (int_from_bytes
                    (slice [0; 100; 0; 16; 7] (Some 1) (Some 4)))).
Proof.
  apply (queries_on_wire_frames 1 240 1 112 4 1 100 0
           [0; 100; 0; 16; 7] [100] [[0; 100; 0; 16; 5]]).
  - unfold is_byte. lia.
  - unfold is_channel. lia.
  - repeat constructor; unfold is_channel; lia.
  - cbn. lia.
  - repeat constructor. exists 16. split; [reflexivity|].
    intros w H. injection H as <-. cbn. lia.
Defined.

Section QueryEdges.

Lemma int_from_bytes_3 (l : bytes) :
  wf_bytes l -> 0 <= int_from_bytes (slice l (Some 1) (Some 4)) < 16777216.
Proof.
  intros Hl.
  assert (wf_bytes (slice l (Some 1) (Some 4))) as Hs by now apply wf_slice.
  pose proof (int_from_bytes_bound _ Hs) as Hb.
  assert (len (slice l (Some 1) (Some 4)) <= 3) as Hn.
  { unfold slice, clamp. change (1 <? 0) with false. change (4 <? 0) with false.
    cbv iota. unfold len. rewrite length_firstn. lia. }
  pose proof (len_nonneg (slice l (Some 1) (Some 4))) as H0.
  assert (2 ^ (8 * len (slice l (Some 1) (Some 4))) <= 2 ^ 24) as Hp.
  { apply Z.pow_le_mono_r; lia. }
  change (2 ^ 24) with 16777216 in Hp. lia.
Qed.

End QueryEdges.

(** X17: the multi-channel query raises [OverflowError] for every list of
    more than 126 channels, whatever the channels and whatever is received:
    the count, the channel bytes or the length byte of the request do not
    fit. *)
Theorem too_many_channels_overflow (reply : bytes) (chlist : list Z) (r : Z) :
  126 < len chlist ->
  onlineMultiChannelQuery reply chlist r = Raise OverflowError.
Proof.
  intros Hn. unfold onlineMultiChannelQuery.
  destruct (to_bytes_cases 1 (len chlist)) as [(c & Hc & Hr) | [-> _]];
    [|reflexivity].
  change (256 ^ Z.of_nat 1) with 256 in Hr.
  rewrite to_bytes_1 in Hc by exact Hr. injection Hc as <-.
  rewrite to_bytes_1 by exact Hr. cbn [bind].
  destruct (channel_bytes_cases chlist [len chlist]) as [(bs & -> & Hbs) | ->];
    [|reflexivity].
  cbn [bind]. change (len [len chlist]) with 1 in Hbs.
  rewrite send_request_overflow by (do 3 right; lia). reflexivity.
Qed.

Lemma too_many_channels_overflow_witness :
  onlineMultiChannelQuery [] (repeat 100 127) 1 = Raise OverflowError.
Proof.
  apply (too_many_channels_overflow [] (repeat 100 127) 1).
  unfold len. rewrite repeat_length. lia.
Defined.

(** X18: the loop that assembles the multi-channel request appends, for
    every channel of the list in order, its two little-endian bytes behind
    what is already there (the count byte). *)
Theorem channel_bytes_layout (chlist : list Z) (acc : bytes) :
  Forall is_channel chlist ->
  channel_bytes chlist acc = Ok (acc ++ channels_le chlist).
Proof. intros H. now apply channel_bytes_le. Qed.

Lemma channel_bytes_layout_witness :
  channel_bytes [100; 460] [2] = Ok ([2] ++ channels_le [100; 460]).
Proof.
  apply (channel_bytes_layout [100; 460] [2]).
  repeat constructor; unfold is_channel; lia.
Defined.



(** X20: whatever well-formed bytes are received, a number the
    readout-time query returns lies in 0..16777215 (three bytes). *)
Theorem readoutTimeQuery_range (reply : bytes) (r : Z) :
  is_byte r -> wf_bytes reply ->
  match readoutTimeQuery reply r with
  | Ok (PyInt ts) => 0 <= ts < 16777216
  | Ok _ => False
  | Raise _ => True
  end.
Proof.
  intros Hr Hwf. destruct byte_consts as (H23 & H2F & H26 & H28 & H2D & H10).
  unfold readoutTimeQuery.
  rewrite send_request_rx_only by first [assumption | now cbv].
  destruct reply as [|b0 reply0] eqn:Er; [cbn; lia|]. rewrite <- Er in *.
  assert (reply <> []) as Hne by (rewrite Er; discriminate).
  pose proof (send_request_rx_cases reply [0x28] [0x10] Hwf Hne) as Hc.
  destruct (send_request_rx reply [0x28] [0x10]) as [[z|p|f|s0| |l]|e];
    try contradiction; cbn [bind]; [|exact I].
  cbn [ne_zero as_bytes bind]. unfold parse_readout_time_request.
  now apply int_from_bytes_3.
Qed.

Lemma readoutTimeQuery_range_witness :
  match readoutTimeQuery zero_time_reply 1 with
  | Ok (PyInt ts) => 0 <= ts < 16777216
  | Ok _ => False
  | Raise _ => True
  end.
Proof.
  apply (readoutTimeQuery_range zero_time_reply 1).
  - unfold is_byte. lia.
  - repeat constructor; unfold is_byte; lia.
Defined.

(* ================================================================== *)
(** * readFromLAN *)
(* ================================================================== *)

Section ReadFromLAN.

Lemma readFromLAN_loop_done (script : list recv_outcome) (data : bytes)
    (loops : Z) :
  10 <= loops -> readFromLAN_loop script data loops = Some (data, script).
Proof.
  intros H. destruct script as [|o script]; cbn [readFromLAN_loop];
    destruct (Z.ltb_spec loops 10); (lia || reflexivity).
Qed.

Lemma timeouts_cons_timeout (script : list recv_outcome) :
  timeouts (TimedOut :: script) = 1 + timeouts script.
Proof. unfold timeouts, len. cbn [filter List.length]. lia. Qed.

Lemma timeouts_cons_received (d : bytes) (script : list recv_outcome) :
  timeouts (Received d :: script) = timeouts script.
Proof. reflexivity. Qed.

Lemma readFromLAN_loop_returns (script : list recv_outcome) :
  forall data loops out rest,
    0 <= loops < 10 ->
    readFromLAN_loop script data loops = Some (out, rest) ->
    exists consumed,
      script = consumed ++ TimedOut :: rest
      /\ out = data ++ received consumed
      /\ (12 <= len out \/ loops + timeouts consumed = 9).
Proof.
  induction script as [|o script IH]; intros data loops out rest Hl H;
    cbn [readFromLAN_loop] in H;
    destruct (Z.ltb_spec loops 10) as [_|]; try lia.
  - discriminate.
  - destruct o as [d|].
    + destruct (IH _ _ _ _ Hl H) as (consumed & -> & -> & Hc).
      exists (Received d :: consumed). split; [reflexivity|].
      split; [cbn [received flat_map]; now rewrite app_assoc|].
      now rewrite timeouts_cons_received.
    + destruct (Z.ltb_spec (len data) 12) as [Hd|Hd].
      * destruct (Z.eq_dec loops 9) as [->|Hn9].
        -- rewrite readFromLAN_loop_done in H by lia. injection H as <- <-.
           exists []. cbn. rewrite app_nil_r. split; [reflexivity|].
           split; [reflexivity | right; reflexivity].
        -- assert (0 <= loops + 1 < 10) as Hl' by lia.
           destruct (IH _ _ _ _ Hl' H) as (consumed & -> & -> & Hc).
           exists (TimedOut :: consumed). split; [reflexivity|].
           split; [reflexivity|]. rewrite timeouts_cons_timeout.
           destruct Hc; [left | right]; lia.
      * rewrite readFromLAN_loop_done in H by lia. injection H as <- <-.
        exists []. cbn. rewrite app_nil_r. split; [reflexivity|].
        split; [reflexivity | left; lia].
Qed.

Lemma readFromLAN_loop_chunks (chunks : list bytes) :
  forall tail data loops,
    loops < 10 ->
    readFromLAN_loop (map Received chunks ++ tail) data loops
    = readFromLAN_loop tail (data ++ List.concat chunks) loops.
Proof.
  induction chunks as [|d chunks IH]; intros tail data loops Hl.
  - cbn. now rewrite app_nil_r.
  - cbn [map app readFromLAN_loop List.concat].
    destruct (Z.ltb_spec loops 10); [|lia].
    rewrite IH by assumption. now rewrite app_assoc.
Qed.


Lemma readFromLAN_loop_waits (chunks : list bytes) :
  forall data loops,
    loops < 10 -> readFromLAN_loop (map Received chunks) data loops = None.
Proof.
  induction chunks as [|d chunks IH]; intros data loops Hl;
    cbn [map readFromLAN_loop]; destruct (Z.ltb_spec loops 10); try lia.
  - reflexivity.
  - now apply IH.
Qed.

Lemma timeouts_nonneg (script : list recv_outcome) : 0 <= timeouts script.
Proof. unfold timeouts, len. lia. Qed.

(** Outcomes that leave fewer than 12 bytes and fewer than ten timeouts
    only move the loop forward. *)
Lemma readFromLAN_loop_early (early : list recv_outcome) :
  forall tail data loops,
    0 <= loops -> loops + timeouts early < 10 ->
    len (data ++ received early) < 12 ->
    readFromLAN_loop (early ++ tail) data loops
    = readFromLAN_loop tail (data ++ received early) (loops + timeouts early).
Proof.
  induction early as [|o early IH]; intros tail data loops H0 Ht Hd.
  - cbn [app received flat_map]. rewrite app_nil_r.
    change (timeouts []) with 0. now rewrite Z.add_0_r.
  - pose proof (timeouts_nonneg early) as Hte.
    cbn [app readFromLAN_loop]. destruct o as [d|].
    + rewrite timeouts_cons_received in *.
      destruct (Z.ltb_spec loops 10); [|lia].
      cbn [received flat_map] in *. rewrite app_assoc in *.
      now apply IH.
    + rewrite timeouts_cons_timeout in *.
      destruct (Z.ltb_spec loops 10); [|lia].
      cbn [received flat_map app] in *.
      assert (len data < 12) as Hdata.
      { rewrite len_app in Hd.
        pose proof (len_nonneg (flat_map
          (fun o => match o with Received d => d | TimedOut => [] end) early)).
        lia. }
      destruct (Z.ltb_spec (len data) 12); [|lia].
      rewrite IH by (assumption || lia). f_equal. lia.
Qed.

End ReadFromLAN.

(** X21: when [readFromLAN] returns, it returns at a timeout: the data are
    all the bytes received up to that timeout, in order, and either at least
    12 bytes have accumulated or it is the tenth timeout (nine were counted
    before it, consecutive or not). *)
Theorem readFromLAN_returns (script rest : list recv_outcome) (data : bytes) :
  readFromLAN script = Some (data, rest) ->
  exists consumed,
    script = consumed ++ TimedOut :: rest
    /\ data = received consumed
    /\ (12 <= len data \/ timeouts consumed = 9).
Proof.
  intros H. unfold readFromLAN in H.
  destruct (readFromLAN_loop_returns script [] 0 data rest ltac:(lia) H)
    as (consumed & Hs & Hd & Hc).
  exists consumed. cbn [app] in Hd. rewrite Z.add_0_l in Hc. auto.
Qed.

Lemma readFromLAN_returns_witness :
  exists consumed,
    [Received status_ok_reply; TimedOut; Received [1]]
    = consumed ++ TimedOut :: [Received [1]]
    /\ status_ok_reply = received consumed
    /\ (12 <= len status_ok_reply \/ timeouts consumed = 9).
Proof.
  apply (readFromLAN_returns
           [Received status_ok_reply; TimedOut; Received [1]]
           [Received [1]] status_ok_reply).
  reflexivity.
Defined.

(** X22: [readFromLAN] returns at the first timeout at which at least 12
    bytes have accumulated.  After any outcomes that brought fewer than 12
    bytes and fewer than ten timeouts, pieces that bring the total to 12
    bytes or more are returned, with everything before them, at the next
    timeout; whatever follows that timeout, later pieces of the same reply
    included, is left unread. *)
Theorem readFromLAN_returns_at_full_timeout (early : list recv_outcome)
    (chunks : list bytes) (rest : list recv_outcome) :
  timeouts early < 10 -> len (received early) < 12 ->
  12 <= len (received early ++ List.concat chunks) ->
  readFromLAN (early ++ map Received chunks ++ TimedOut :: rest)
  = Some (received early ++ List.concat chunks, rest).
Proof.
  intros Ht He H. unfold readFromLAN.
  rewrite readFromLAN_loop_early by (cbn [app]; lia).
  cbn [app]. rewrite Z.add_0_l.
  rewrite readFromLAN_loop_chunks by lia.
  cbn [readFromLAN_loop].
  destruct (Z.ltb_spec (timeouts early) 10); [|lia].
  destruct (Z.ltb_spec (len (received early ++ List.concat chunks)) 12); [lia|].
  apply readFromLAN_loop_done. lia.
Qed.

Lemma readFromLAN_returns_at_full_timeout_witness :
  readFromLAN ([Received [1; 16]; TimedOut]
               ++ map Received [[1; 240; 1; 112; 4; 2; 38; 16; 0; 0]]
               ++ TimedOut :: [Received [3; 13; 240; 4]; TimedOut])
  = Some (received [Received [1; 16]; TimedOut]
          ++ List.concat [[1; 240; 1; 112; 4; 2; 38; 16; 0; 0]],
          [Received [3; 13; 240; 4]; TimedOut]).
Proof.
  apply (readFromLAN_returns_at_full_timeout
           [Received [1; 16]; TimedOut]
           [[1; 240; 1; 112; 4; 2; 38; 16; 0; 0]]
           [Received [3; 13; 240; 4]; TimedOut]); cbn; lia.
Defined.



(** X24: as long as every [recv] hands over something, empty or not, the
    loop does not return: no timeout is counted, so a peer that keeps the
    line busy, or a closed connection on which [recv] returns the empty
    bytes at once, keeps [readFromLAN] reading after any number of calls. *)
Theorem readFromLAN_needs_a_timeout (chunks : list bytes) :
  readFromLAN (map Received chunks) = None.
Proof. unfold readFromLAN. apply readFromLAN_loop_waits. lia. Qed.

(* ================================================================== *)
(** * Truncated multi-channel payloads *)
(* ================================================================== *)

Section TruncatedPayload.







End TruncatedPayload.

Section TruncatedPayloadCases.

Variables (status n : Z) (entries : list bytes) (m : nat).
Hypothesis Hc : Forall entry_complete entries.
Hypothesis Hn : Z.to_nat n = (List.length entries + S m)%nat.



End TruncatedPayloadCases.


